(** * LogDevice copyset selector factory

    A shallow embedding of [logdevice/common/CopySetSelectorFactory.cpp]:
    the factory [create] that picks one of the three copyset selectors from
    the epoch metadata and the settings, and [createManager] that wraps the
    selector in a sticky or pass-through copyset manager.

    The classes, enums and macros the factory uses are declared in headers
    that are not part of the sources at hand.  Their data is modelled by the
    fields the factory touches; their behaviour is either a parameter of a
    section or, where a property speaks about it, modelled from the
    specification and marked as such. *)

From Stdlib Require Import ZArith NArith QArith List Bool Lia.
From Stdlib Require Import Strings.Byte.
Import ListNotations.
Close Scope Q_scope.

Set Implicit Arguments.
Set Default Proof Using "Type".

(** ** Identifiers *)

(** [logid_t] wraps a 64-bit unsigned integer. *)
Definition logid_t := N.
Definition node_index_t := Z.
Definition shard_index_t := Z.
Bind Scope N_scope with logid_t.
Bind Scope Z_scope with node_index_t shard_index_t.

(** A shard is a (node, shard index) pair. *)
Record ShardID : Type := mkShardID
  { shard_node : node_index_t;
    shard_index : shard_index_t }.

Definition ShardID_eqb (a b : ShardID) : bool :=
  Z.eqb (shard_node a) (shard_node b) && Z.eqb (shard_index a) (shard_index b).

Definition StorageSet := list ShardID.

Record NodeID : Type := mkNodeID
  { node_idx : node_index_t;
    node_generation : N }.

(** ** Location scopes *)

(** Modelled from the spec: the enum [NodeLocationScope] is declared in
    [NodeLocation.h], which is not among the sources.  The factory names
    NODE, RACK, ROW, CLUSTER and REGION; the specification orders the
    hierarchy region, cluster, row, rack, node from coarse to fine and
    speaks of "any other scope value".  The remaining enumerators are
    LogDevice's DATA_CENTER, ROOT and INVALID.  Enumerators compare by their
    position, NODE being the smallest. *)
Inductive NodeLocationScope : Type :=
| NODE | RACK | ROW | CLUSTER | DATA_CENTER | REGION | ROOT | INVALID.

Definition scope_rank (s : NodeLocationScope) : N :=
  match s with
  | NODE => 0 | RACK => 1 | ROW => 2 | CLUSTER => 3
  | DATA_CENTER => 4 | REGION => 5 | ROOT => 6 | INVALID => 7
  end%N.

(** [a == b] on scopes. *)
Definition scope_eqb (a b : NodeLocationScope) : bool :=
  N.eqb (scope_rank a) (scope_rank b).

(** [a >= b] on scopes. *)
Definition scope_geb (a b : NodeLocationScope) : bool :=
  N.leb (scope_rank b) (scope_rank a).

(** "At or above": the order the comparison operators decide. *)
Definition scope_le (a b : NodeLocationScope) : Prop :=
  (scope_rank a <= scope_rank b)%N.

(** ** Replication property and epoch metadata *)

(** [copyset_size_t] is a small unsigned integer. *)
Definition copyset_size_t := N.
Bind Scope N_scope with copyset_size_t.

(** [ReplicationProperty::OldRepresentation]. *)
Record OldRepresentation : Type := mkOldRepresentation
  { replication_factor : copyset_size_t;
    sync_replication_scope : NodeLocationScope }.

(** [ReplicationProperty] is declared elsewhere; the factory only calls
    [toOldRepresentation()] and [getBiggestReplicationScope()] on it, so an
    object is represented by what these two calls return. *)
Record ReplicationProperty : Type := mkReplicationProperty
  { toOldRepresentation : option OldRepresentation;
    getBiggestReplicationScope : NodeLocationScope }.

(** The fields of [EpochMetaData] the factory reads.  [weights] is a
    [std::vector<double>]; only its emptiness is inspected here. *)
Record EpochMetaData : Type := mkEpochMetaData
  { shards : StorageSet;
    replication : ReplicationProperty;
    weights : list Q }.

(** [std::vector::empty]. *)
Definition empty {A : Type} (v : list A) : bool :=
  match v with [] => true | _ :: _ => false end.

(** [folly::Optional::hasValue]. *)
Definition hasValue {A : Type} (o : option A) : bool :=
  match o with Some _ => true | None => false end.

(** ** Configuration *)

(** Modelled from the spec: [StorageMembership] and its [writerView] live
    in the membership library, which is not among the sources.  The
    specification calls the result "the writable shard view": the shards of
    the given storage set that the membership allows writes to, in the
    order of the storage set. *)
Record StorageMembership : Type := mkStorageMembership
  { canWriteToShard : ShardID -> bool }.

Definition writerView (m : StorageMembership) (ns : StorageSet) : StorageSet :=
  filter (canWriteToShard m) ns.

Record NodesConfiguration : Type := mkNodesConfiguration
  { getStorageMembership : StorageMembership }.

Record ServerConfig : Type := mkServerConfig
  { getNodesConfigurationFromServerConfigSource : NodesConfiguration }.

(** The two settings the factory reads. *)
Record Settings : Type := mkSettings
  { weighted_copyset_selector : bool;
    copyset_locality_min_scope : NodeLocationScope }.

(** The shard health view shared by the selectors and the managers. *)
Record NodeSetState : Type := mkNodeSetState
  { isWritable : ShardID -> bool }.

(** Opaque collaborators that are only passed through. *)
Inductive LogAttributes : Type := LogAttributesRef (id : N).
Inductive StatsHolder : Type := StatsHolderRef (id : N).

(** A random generator is represented by its state. *)
Definition RNG := N.
Bind Scope N_scope with RNG.

(** [std::shared_ptr<T>] and raw pointers: [None] is the null pointer. *)
Definition shared_ptr (A : Type) := option A.

Definition non_null {A : Type} (p : shared_ptr A) : bool :=
  match p with Some _ => true | None => false end.

(** ** How a call can end *)

(** The error taxonomy of the specification (section 7). *)
Inductive SpecError : Type :=
| InvalidConfiguration | InsufficientShards | StateInconsistency.

(** A call either returns, or ends in one of these ways:
    - [Reported e]: an error of the taxonomy is handed back to the caller;
    - [FailedCheckAbort]: a failed [ld_check] aborts the process;
    - [OptionalEmptyException]: [folly::Optional::value()] on an empty
      optional throws, and the factory does not catch it;
    - [NullDereference]: a null pointer is dereferenced. *)
Inductive Failure : Type :=
| Reported (e : SpecError)
| FailedCheckAbort
| OptionalEmptyException
| NullDereference.

Inductive Outcome (A : Type) : Type :=
| Ok (a : A)
| Fail (f : Failure).

Arguments Ok {A} a.
Arguments Fail {A} f.

Definition bind {A B : Type} (m : Outcome A) (k : A -> Outcome B) : Outcome B :=
  match m with
  | Ok a => k a
  | Fail f => Fail f
  end.

Declare Scope outcome_scope.
Delimit Scope outcome_scope with outcome.
Notation "x <- m ;; k" := (bind m (fun x => k))
  (at level 61, m at next level, right associativity) : outcome_scope.
Notation "m ;;; k" := (bind m (fun _ => k))
  (at level 61, right associativity) : outcome_scope.
Open Scope outcome_scope.

(** [*p] and [p->]. *)
Definition deref {A : Type} (p : shared_ptr A) : Outcome A :=
  match p with
  | Some a => Ok a
  | None => Fail NullDereference
  end.

(** [folly::Optional::value()] and [operator->]. *)
Definition value {A : Type} (o : option A) : Outcome A :=
  match o with
  | Some a => Ok a
  | None => Fail OptionalEmptyException
  end.

(** ** The selectors and the managers

    The constructors of the selector and manager classes are not among the
    sources; an object is represented by the arguments it was constructed
    with, in the order of the constructor call. *)

Record WeightedCopySetSelector : Type := mkWeightedCopySetSelector
  { w_logid : logid_t;
    w_epoch_metadata : EpochMetaData;
    w_nodeset_state : shared_ptr NodeSetState;
    w_config : shared_ptr ServerConfig;
    w_my_node_id : option NodeID;
    w_log_attrs : shared_ptr LogAttributes;
    w_locality_enabled : bool;
    w_stats : StatsHolder;
    w_init_rng : RNG;
    w_print_bias_warnings : bool }.

Record LinearCopySetSelector : Type := mkLinearCopySetSelector
  { l_replication_factor : copyset_size_t;
    l_nodeset : StorageSet;
    l_nodeset_state : shared_ptr NodeSetState }.

Record CrossDomainCopySetSelector : Type := mkCrossDomainCopySetSelector
  { c_logid : logid_t;
    c_nodeset : StorageSet;
    c_nodeset_state : shared_ptr NodeSetState;
    c_config : shared_ptr ServerConfig;
    c_my_node_id : NodeID;
    c_replication_factor : copyset_size_t;
    c_sync_replication_scope : NodeLocationScope }.

(** [std::unique_ptr<CopySetSelector>] pointing to one of the subclasses. *)
Inductive CopySetSelector : Type :=
| Weighted (w : WeightedCopySetSelector)
| Linear (l : LinearCopySetSelector)
| CrossDomain (c : CrossDomainCopySetSelector).

(** The candidate shards a selector was constructed over. *)
Definition candidates (s : CopySetSelector) : StorageSet :=
  match s with
  | Weighted w => shards (w_epoch_metadata w)
  | Linear l => l_nodeset l
  | CrossDomain c => c_nodeset c
  end.

(** The two subclasses of [CopySetManager]. *)
Inductive ManagerVariant : Type :=
| StickyCopySetManager (sticky_copysets_block_size : N)
                       (sticky_copysets_block_max_time : Z)
| PassThroughCopySetManager.

(** A manager: the variant, the constructor arguments common to both, and
    the two storage sets of the base class that the config match check
    compares; both are empty until the check is prepared. *)
Record CopySetManager : Type := mkCopySetManager
  { variant : ManagerVariant;
    underlying_selector : CopySetSelector;
    m_nodeset_state : shared_ptr NodeSetState;
    full_nodeset : StorageSet;
    effective_nodeset : StorageSet }.

Definition newCopySetManager (v : ManagerVariant) (sel : CopySetSelector)
    (nodeset_state : shared_ptr NodeSetState) : CopySetManager :=
  {| variant := v;
     underlying_selector := sel;
     m_nodeset_state := nodeset_state;
     full_nodeset := [];
     effective_nodeset := [] |}.

Fixpoint StorageSet_eqb (a b : StorageSet) : bool :=
  match a, b with
  | [], [] => true
  | x :: a', y :: b' => ShardID_eqb x y && StorageSet_eqb a' b'
  | _, _ => false
  end.

(** Modelled from the spec: [CopySetManager::prepareConfigMatchCheck] and
    the check it prepares are defined in [CopySetManager.cpp], which is not
    among the sources.  The specification (section 4.5): "given the current
    cluster configuration, verify the wrapped strategy's nodeset still
    matches the writable shard view"; the check "reports rather than
    raises".  Preparing records the nodeset and its writable view under the
    configuration at hand. *)
Definition prepareConfigMatchCheck (nodeset : StorageSet) (cfg : ServerConfig)
    (m : CopySetManager) : CopySetManager :=
  {| variant := variant m;
     underlying_selector := underlying_selector m;
     m_nodeset_state := m_nodeset_state m;
     full_nodeset := nodeset;
     effective_nodeset :=
       writerView (getStorageMembership
                     (getNodesConfigurationFromServerConfigSource cfg))
                  nodeset |}.

(** Modelled from the spec: the check itself (section 6,
    [checkConfigConsistency ... -> bool]): the writable view of the recorded
    nodeset under the current configuration is compared with the recorded
    one; the answer is a boolean. *)
Definition checkConfigConsistency (m : CopySetManager) (cfg : ServerConfig)
    : Outcome bool :=
  Ok (StorageSet_eqb
        (writerView (getStorageMembership
                       (getNodesConfigurationFromServerConfigSource cfg))
                    (full_nodeset m))
        (effective_nodeset m)).

(** ** A sample cluster

    A five-node cluster, one shard per node; node 3 is not writable in the
    configuration's storage membership. *)

Definition N_ (n : Z) : ShardID := mkShardID n 0%Z.

Definition sample_shards : StorageSet :=
  [N_ 0; N_ 1; N_ 2; N_ 3; N_ 4]%Z.

Definition sample_config : ServerConfig :=
  mkServerConfig (mkNodesConfiguration
    (mkStorageMembership (fun s => negb (Z.eqb (shard_node s) 3)))).

(** The same cluster after node 1 lost its write permission too. *)
Definition sample_config_later : ServerConfig :=
  mkServerConfig (mkNodesConfiguration
    (mkStorageMembership
       (fun s => negb (Z.eqb (shard_node s) 3) && negb (Z.eqb (shard_node s) 1)))).

Definition sample_health : NodeSetState := mkNodeSetState (fun _ => true).

Definition sample_settings : Settings := mkSettings false ROW.

Definition sample_node_id : NodeID := mkNodeID 0%Z 1%N.

Definition simple_metadata (scope : NodeLocationScope) (factor : N)
    (w : list Q) : EpochMetaData :=
  mkEpochMetaData sample_shards
    (mkReplicationProperty (Some (mkOldRepresentation factor scope)) scope) w.

(** Replication that has no (factor, scope) representation. *)
Definition multi_scope_metadata : EpochMetaData :=
  mkEpochMetaData sample_shards (mkReplicationProperty None REGION) [].

(** Sample classification of log ids: the top bit marks a metadata log, ids
    from [2^62 - 1000] on are internal. *)
Definition sample_isMetaDataLog (l : logid_t) : bool := N.testbit l 63.
Definition sample_isInternal (l : logid_t) : bool :=
  N.leb (2 ^ 62 - 1000)%N l && negb (N.testbit l 63).

Definition sample_stats : StatsHolder := StatsHolderRef 0%N.

(** Sample topology: two nodes per rack, everything else shared. *)
Definition sample_domain_of (scope : NodeLocationScope) (s : ShardID) : N :=
  match scope with
  | NODE => Z.to_N (shard_node s)
  | RACK => Z.to_N (shard_node s / 2)
  | _ => 0%N
  end.

Definition sample_constraints (r : ReplicationProperty)
    : list (NodeLocationScope * nat) :=
  [(RACK, 2%nat); (NODE, 3%nat)].

Definition sample_effective_factor (r : ReplicationProperty) : nat := 3.

Definition sample_shard_weight (md : EpochMetaData) (s : ShardID) : Q :=
  nth (Z.to_nat (shard_node s)) (weights md) 1%Q.

(** A draw that takes the first shard of positive weight. *)
Definition sample_draw (rng : RNG) (pool : list (ShardID * Q))
    : option (ShardID * RNG) :=
  match filter (fun p => negb (Qle_bool (snd p) 0)) pool with
  | [] => None
  | (s, _) :: _ => Some (s, N.succ rng)
  end.

Definition sample_skewed (load : ShardID -> N) (md : EpochMetaData) : bool :=
  existsb (fun s => N.ltb 10 (load s)) (shards md).

(** The scenarios of the specification: node scope with factor 3, rack
    scope with factor 2, weights on a node-scope property with factor 2, and
    a scope the factory does not accept. *)
Definition node_metadata : EpochMetaData := simple_metadata NODE 3 [].
Definition rack_metadata : EpochMetaData := simple_metadata RACK 2 [].
Definition weighted_metadata : EpochMetaData :=
  simple_metadata NODE 2 [1; 1; 1; 1; 1]%Q.
Definition data_center_metadata : EpochMetaData :=
  simple_metadata DATA_CENTER 2 [].

(** The writable view of the sample nodeset: node 3 is left out. *)
Definition sample_writable : StorageSet := [N_ 0; N_ 1; N_ 2; N_ 4]%Z.

Definition sample_linear : CopySetSelector :=
  Linear (mkLinearCopySetSelector 3 sample_writable (Some sample_health)).

Definition sample_cross_domain : CopySetSelector :=
  CrossDomain
    (mkCrossDomainCopySetSelector 1 sample_writable (Some sample_health)
       (Some sample_config) sample_node_id 2 RACK).

(** The cross-domain selector for a scope the factory does not accept. *)
Definition sample_cross_data_center : CopySetSelector :=
  CrossDomain
    (mkCrossDomainCopySetSelector 1 sample_writable (Some sample_health)
       (Some sample_config) sample_node_id 2 DATA_CENTER).

Definition sample_weighted (md : EpochMetaData) (locality : bool)
    : WeightedCopySetSelector :=
  mkWeightedCopySetSelector 1 md (Some sample_health) (Some sample_config)
    None None locality sample_stats 7 true.

(** The sticky manager the factory builds for the node-scope scenario, with
    blocks of 10 writes and 5000 ms. *)
Definition sample_sticky_manager : CopySetManager :=
  mkCopySetManager (StickyCopySetManager 10 5000) sample_linear
    (Some sample_health) sample_shards sample_writable.

(** ** The keep-alive counter of the event loop

    [EventLoop.h] defines the two keep-alive calls of [folly::Executor]
    inline.  They touch two atomic members of the loop, which are all of
    the loop that is represented here.  Every call is taken as one step;
    the interleaving of steps of concurrent callers is not modelled. *)

(** [size_t] on the 64-bit targets LogDevice builds for. *)
Definition size_t_modulus : N := 2 ^ 64.

Record EventLoop : Type := mkEventLoop
  { shutting_down_ : bool;
    num_references_ : N }.

(** [ld_assert] is a macro of [checks.h], which is not among the sources:
    where assertions are compiled in, a failed one aborts the process;
    elsewhere it does nothing. *)
Definition ld_assert (assertsEnabled cond : bool) : Outcome unit :=
  if cond then Ok tt
  else if assertsEnabled then Fail FailedCheckAbort
  else Ok tt.

(** [EventLoop::keepAliveAcquire]: the answer and the loop after the call. *)
Definition keepAliveAcquire (el : EventLoop) : bool * EventLoop :=
  if shutting_down_ el then (false, el)
  else
    (true,
     mkEventLoop (shutting_down_ el)
                 ((num_references_ el + 1) mod size_t_modulus)).

(** [EventLoop::keepAliveRelease]: [fetch_sub] wraps around like every
    unsigned subtraction, then the previous value is asserted positive. *)
Definition keepAliveRelease (assertsEnabled : bool) (el : EventLoop)
    : Outcome EventLoop :=
  let prev := num_references_ el in
  let el' :=
    mkEventLoop (shutting_down_ el)
                ((prev + size_t_modulus - 1) mod size_t_modulus) in
  ld_assert assertsEnabled (N.ltb 0 prev) ;;;
  Ok el'.

(** A sequence of keep-alive calls on one loop, with the answers of the
    acquire calls in order. *)
Inductive KeepAliveCall : Type := Acquire | Release.

Fixpoint keepAliveCalls (assertsEnabled : bool) (calls : list KeepAliveCall)
    (el : EventLoop) : Outcome (list bool * EventLoop) :=
  match calls with
  | [] => Ok ([], el)
  | Acquire :: rest =>
      r <- keepAliveCalls assertsEnabled rest (snd (keepAliveAcquire el)) ;;
      Ok (fst (keepAliveAcquire el) :: fst r, snd r)
  | Release :: rest =>
      el' <- keepAliveRelease assertsEnabled el ;;
      keepAliveCalls assertsEnabled rest el'
  end.

Fixpoint count_acquires (calls : list KeepAliveCall) : nat :=
  match calls with
  | [] => O
  | Acquire :: rest => S (count_acquires rest)
  | Release :: rest => count_acquires rest
  end.

Fixpoint count_releases (calls : list KeepAliveCall) : nat :=
  match calls with
  | [] => O
  | Acquire :: rest => count_releases rest
  | Release :: rest => S (count_releases rest)
  end.

(** The references outstanding after the calls, counted without bounds,
    starting from [n]; [None] when a release comes with none outstanding. *)
Fixpoint outstanding (n : N) (calls : list KeepAliveCall) : option N :=
  match calls with
  | [] => Some n
  | Acquire :: rest => outstanding (n + 1) rest
  | Release :: rest =>
      if N.eqb n 0 then None else outstanding (n - 1) rest
  end.

(** ** The serialization test of OffsetMap

    [OffsetMapTest.cpp] writes 99 offset maps one after the other into one
    buffer and reads them back.  [OffsetMap.h] is not among the sources:
    the class and the calls the test makes on it are parameters of this
    section.  The buffer is memory addressed from [buf1.get()]. *)

Definition Memory := N -> Byte.byte.

(** Arithmetic on [size_t], for operands below the modulus. *)
Definition size_t_add (a b : N) : N := (a + b) mod size_t_modulus.
Definition size_t_sub (a b : N) : N :=
  (a + size_t_modulus - b) mod size_t_modulus.

(** The conversion of an [int] to [size_t]. *)
Definition int_to_size_t (z : Z) : N := Z.to_N (z mod 2 ^ 64).

(** [v[i] = x] on a vector, for [i] within bounds. *)
Fixpoint set_nth {A : Type} (i : nat) (x : A) (v : list A) : list A :=
  match v, i with
  | [], _ => []
  | _ :: t, O => x :: t
  | h :: t, S k => h :: set_nth k x t
  end.

(** The assertions of the test, and how a run of the test ends. *)
Inductive Assertion : Type :=
| CounterSizePositive   (* ASSERT_GT(counter_size[i], 0) *)
| CounterValue          (* ASSERT_EQ(getCounter(BYTE_OFFSET), i % 10) *)
| BytesConsumed         (* ASSERT_EQ(counter_size[i], nbytes) *)
| TotalConsumed.        (* ASSERT_EQ(written, n_read) *)

Inductive Run (A : Type) : Type :=
| Go (a : A)
| AssertionFailed (which : Assertion) (i : nat).

Arguments Go {A} a.
Arguments AssertionFailed {A} which i.

Inductive TestResult : Type :=
| Passed
| Failed (which : Assertion) (i : nat).

(** The variables of the test that the first loop updates. *)
Record Writer : Type := mkWriter
  { buf1 : Memory;
    counter_size : list N;
    written : N }.

Definition n_counters : nat := 99.
Definition max_len : N := 1024 * 1024.

Section OffsetMapTest.

Variable OffsetMap : Type.
Variable CounterType : Type.
Variable BYTE_OFFSET : CounterType.

(** The default constructor, [setCounter] and [getCounter]. *)
Variable newOffsetMap : OffsetMap.
Variable setCounter : CounterType -> N -> OffsetMap -> OffsetMap.
Variable getCounter : CounterType -> OffsetMap -> N.

(** [serialize(buf, size)] on the memory, with the address of [buf]: the
    value the test stores in a [size_t], and the memory after the call. *)
Variable serialize : OffsetMap -> Memory -> N -> N -> N * Memory.

(** [deserialize({buf, size})]: the [int] it returns and the map after the
    call. *)
Variable deserialize : OffsetMap -> Memory -> N -> N -> Z * OffsetMap.

(** The body of the first loop. *)
Definition write_record (i : nat) (w : Writer) : Run Writer :=
  let offset_map_writer :=
    setCounter BYTE_OFFSET (N.of_nat i mod 10) newOffsetMap in
  let r := serialize offset_map_writer (buf1 w) (written w)
                     (size_t_sub max_len (written w)) in
  let sizes := set_nth i (fst r) (counter_size w) in
  if N.ltb 0 (nth i sizes 0%N)
  then Go (mkWriter (snd r) sizes (size_t_add (written w) (nth i sizes 0%N)))
  else AssertionFailed CounterSizePositive i.

Fixpoint write_loop (indices : list nat) (w : Writer) : Run Writer :=
  match indices with
  | [] => Go w
  | i :: rest =>
      match write_record i w with
      | Go w' => write_loop rest w'
      | AssertionFailed a j => AssertionFailed a j
      end
  end.

(** The body of the second loop; it updates [n_read]. *)
Definition read_record (buf : Memory) (sizes : list N) (i : nat) (n_read : N)
    : Run N :=
  let r := deserialize newOffsetMap buf n_read (size_t_sub max_len n_read) in
  let nbytes := fst r in
  let offset_map_reader := snd r in
  if N.eqb (getCounter BYTE_OFFSET offset_map_reader) (N.of_nat i mod 10)
  then
    if N.eqb (nth i sizes 0%N) (int_to_size_t nbytes)
    then Go (size_t_add n_read (int_to_size_t nbytes))
    else AssertionFailed BytesConsumed i
  else AssertionFailed CounterValue i.

Fixpoint read_loop (buf : Memory) (sizes : list N) (indices : list nat)
    (n_read : N) : Run N :=
  match indices with
  | [] => Go n_read
  | i :: rest =>
      match read_record buf sizes i n_read with
      | Go n_read' => read_loop buf sizes rest n_read'
      | AssertionFailed a j => AssertionFailed a j
      end
  end.

(** [TEST(OffsetMapTest, BasicSerialization)], on a buffer of any initial
    content. *)
Definition BasicSerialization (uninitialized : Memory) : TestResult :=
  match write_loop (seq 0 n_counters)
                   (mkWriter uninitialized (repeat 0%N n_counters) 0) with
  | AssertionFailed a i => Failed a i
  | Go w =>
      match read_loop (buf1 w) (counter_size w) (seq 0 n_counters) 0 with
      | AssertionFailed a i => Failed a i
      | Go n_read =>
          if N.eqb (written w) n_read then Passed
          else Failed TotalConsumed n_counters
      end
  end.

(** What the first loop keeps true after [i] rounds: the records lie within
    the first [i * bound] bytes, and the second loop, run over the first
    [i] indices on any memory and any vector that agree with the writer's
    on what has been written, ends with [n_read] at [written]. *)
Definition written_prefix_readable (bound : N) (i : nat) (w : Writer) : Prop :=
  (written w <= N.of_nat i * bound)%N
  /\ length (counter_size w) = n_counters
  /\ forall buf sizes,
       (forall a, (a < written w)%N -> buf a = buf1 w a) ->
       (forall j, (j < i)%nat -> nth j sizes 0%N = nth j (counter_size w) 0%N) ->
       read_loop buf sizes (seq 0 i) 0 = Go (written w).

(** What the test relies on in the class under test, for counters below 10
    and records of at most [bound] bytes.  Given room for [bound] bytes,
    [serialize] writes a record of between 1 and [bound] bytes and leaves
    the memory below the record as it was; [deserialize], on any memory
    holding the bytes of the record at that address and at least as much
    room, returns the length of the record and a map with the counter. *)
Definition serializes_within (bound : N) : Prop :=
  forall v mem buf size,
    (v < 10)%N -> (bound <= size)%N ->
    let r := serialize (setCounter BYTE_OFFSET v newOffsetMap) mem buf size in
    (0 < fst r <= bound)%N
    /\ (forall a, (a < buf)%N -> snd r a = mem a)
    /\ forall mem' size',
         (forall a, (buf <= a < buf + fst r)%N -> mem' a = snd r a) ->
         (fst r <= size')%N ->
         fst (deserialize newOffsetMap mem' buf size') = Z.of_N (fst r)
         /\ getCounter BYTE_OFFSET
              (snd (deserialize newOffsetMap mem' buf size')) = v.

End OffsetMapTest.

(** A sample implementation for the test: a map holding one counter,
    serialized as one byte. *)
Definition byte_of_counter (v : N) : Byte.byte :=
  match Byte.of_N v with
  | Some b => b
  | None => Byte.x00
  end.

Definition sample_serialize (m : N) (mem : Memory) (buf size : N)
    : N * Memory :=
  if N.leb 1 size
  then (1%N, fun a => if N.eqb a buf then byte_of_counter m else mem a)
  else ((size_t_modulus - 1)%N, mem).

Definition sample_deserialize (m : N) (mem : Memory) (buf size : N) : Z * N :=
  if N.leb 1 size then (1%Z, Byte.to_N (mem buf)) else ((-1)%Z, m).

Definition sample_setCounter (_ : unit) (v : N) (_ : N) : N := v.
Definition sample_getCounter (_ : unit) (m : N) : N := m.

(** The same implementation with a [deserialize] that reports one byte too
    many. *)
Definition sample_deserialize_long (m : N) (mem : Memory) (buf size : N)
    : Z * N :=
  (2%Z, Byte.to_N (mem buf)).

(** ** The factory *)

Section Factory.

(** [ld_check] is a macro of [checks.h], which is not among the sources:
    a failed check aborts the process when checks are set to abort, and is
    passed over otherwise. *)
Variable abortOnFailedCheck : bool.

(** [MetaDataLog::isMetaDataLog] and [configuration::InternalLogs::isInternal]. *)
Variable isMetaDataLog : logid_t -> bool.
Variable isInternal : logid_t -> bool.

(** [Worker::stats()] of the worker the factory runs on. *)
Variable Worker_stats : StatsHolder.

(** The default argument of [init_rng] in the header, [DefaultRNG::get()]. *)
Variable DefaultRNG_get : RNG.

Definition ld_check (cond : bool) : Outcome unit :=
  if cond then Ok tt
  else if abortOnFailedCheck then Fail FailedCheckAbort
  else Ok tt.

Definition getWritableShards (ns : StorageSet)
    (config : shared_ptr ServerConfig) : Outcome StorageSet :=
  cfg <- deref config ;;
  Ok (writerView
        (getStorageMembership (getNodesConfigurationFromServerConfigSource cfg))
        ns).

(** [CopySetSelectorFactory::create].  The arguments of a constructor call
    are evaluated before the call, here from left to right; C++ leaves
    their order open, which only shows when [config] is null. *)
Definition create (logid : logid_t) (epoch_metadata : EpochMetaData)
    (nodeset_state : shared_ptr NodeSetState)
    (config : shared_ptr ServerConfig)
    (my_node_id : option NodeID)
    (log_attrs : shared_ptr LogAttributes)
    (settings : Settings)
    (init_rng : RNG) : Outcome CopySetSelector :=
  ld_check (non_null nodeset_state) ;;;
  ld_check (non_null config) ;;;
  let legacy_replication := toOldRepresentation (replication epoch_metadata) in
  if negb (hasValue legacy_replication)
     || negb (empty (weights epoch_metadata))
     || weighted_copyset_selector settings
  then
    let locality_enabled :=
      scope_geb (getBiggestReplicationScope (replication epoch_metadata))
                (copyset_locality_min_scope settings) in
    let print_bias_warnings :=
      negb (isMetaDataLog logid) && negb (isInternal logid) in
    Ok (Weighted
          {| w_logid := logid;
             w_epoch_metadata := epoch_metadata;
             w_nodeset_state := nodeset_state;
             w_config := config;
             w_my_node_id := my_node_id;
             w_log_attrs := log_attrs;
             w_locality_enabled := locality_enabled;
             w_stats := Worker_stats;
             w_init_rng := init_rng;
             w_print_bias_warnings := print_bias_warnings |})
  else
    lr <- value legacy_replication ;;
    if scope_eqb (sync_replication_scope lr) NODE
       || N.eqb (replication_factor lr) 1
    then
      writable <- getWritableShards (shards epoch_metadata) config ;;
      Ok (Linear
            {| l_replication_factor := replication_factor lr;
               l_nodeset := writable;
               l_nodeset_state := nodeset_state |})
    else
      ld_check (scope_eqb (sync_replication_scope lr) RACK
                || scope_eqb (sync_replication_scope lr) ROW
                || scope_eqb (sync_replication_scope lr) CLUSTER
                || scope_eqb (sync_replication_scope lr) REGION) ;;;
      writable <- getWritableShards (shards epoch_metadata) config ;;
      id <- value my_node_id ;;
      Ok (CrossDomain
            {| c_logid := logid;
               c_nodeset := writable;
               c_nodeset_state := nodeset_state;
               c_config := config;
               c_my_node_id := id;
               c_replication_factor := replication_factor lr;
               c_sync_replication_scope := sync_replication_scope lr |}).

(** [CopySetSelectorFactory::createManager].  The call to [create] leaves
    out [init_rng], which then takes its default. *)
Definition createManager (logid : logid_t) (epoch_metadata : EpochMetaData)
    (nodeset_state : shared_ptr NodeSetState)
    (config : shared_ptr ServerConfig)
    (my_node_id : option NodeID)
    (log_attrs : shared_ptr LogAttributes)
    (settings : Settings)
    (sticky_copysets : bool)
    (sticky_copysets_block_size : N)
    (sticky_copysets_block_max_time : Z) : Outcome CopySetManager :=
  copyset_selector <-
    create logid epoch_metadata nodeset_state config my_node_id log_attrs
           settings DefaultRNG_get ;;
  let res :=
    if sticky_copysets
    then newCopySetManager
           (StickyCopySetManager sticky_copysets_block_size
                                 sticky_copysets_block_max_time)
           copyset_selector nodeset_state
    else newCopySetManager PassThroughCopySetManager
           copyset_selector nodeset_state in
  cfg <- deref config ;;
  Ok (prepareConfigMatchCheck (shards epoch_metadata) cfg res).


(** ** Selection by the weighted selector *)

(** Modelled from the spec: [WeightedCopySetSelector.cpp] is not among the
    sources.  What follows is the algorithm of section 4.4 of the
    specification, step by step.  The specification leaves open, and this
    section takes as parameters: the domain of a shard at a scope (the
    cluster topology), the (scope, minimum distinct domains) constraints and
    the effective replication factor of a replication property, the weight
    declared for a shard, the random draw "with probability proportional to
    its remaining weight", and the test that the load is "skewed relative to
    declared weights beyond a warning threshold". *)
Variable domain_of : NodeLocationScope -> ShardID -> N.
Variable constraints : ReplicationProperty -> list (NodeLocationScope * nat).
Variable effective_factor : ReplicationProperty -> nat.
Variable shard_weight : EpochMetaData -> ShardID -> Q.
Variable draw : RNG -> list (ShardID * Q) -> option (ShardID * RNG).
Variable skewed : (ShardID -> N) -> EpochMetaData -> bool.

Definition positive (q : Q) : bool := negb (Qle_bool q 0).

Definition mem_shard (s : ShardID) (l : list ShardID) : bool :=
  existsb (ShardID_eqb s) l.

Definition domains_at (scope : NodeLocationScope) (l : list ShardID) : list N :=
  nodup N.eq_dec (map (domain_of scope) l).

Definition domain_weight (md : EpochMetaData) (scope : NodeLocationScope)
    (d : N) : Q :=
  fold_right Qplus 0%Q
    (map (shard_weight md)
         (filter (fun s => N.eqb (domain_of scope s) d) (shards md))).

(** Step 1: every constrained scope has enough distinct domains with
    positive total weight. *)
Definition enough_domains (md : EpochMetaData)
    (c : NodeLocationScope * nat) : bool :=
  Nat.leb (snd c)
    (length (filter (fun d => positive (domain_weight md (fst c) d))
                    (domains_at (fst c) (shards md)))).

(** A constraint is met by the chosen shards, or can still be met with
    [extra] more picks. *)
Definition satisfiable (chosen : list ShardID) (extra : nat)
    (c : NodeLocationScope * nat) : bool :=
  Nat.leb (snd c) (length (domains_at (fst c) chosen) + extra).

(** Step 2: the shards currently eligible: writable, not yet chosen, and
    such that picking one leaves every constraint satisfiable. *)
Definition eligible (md : EpochMetaData) (health : NodeSetState)
    (chosen : list ShardID) (left_after : nat) (s : ShardID) : bool :=
  isWritable health s
  && negb (mem_shard s chosen)
  && forallb (satisfiable (s :: chosen) left_after)
             (constraints (replication md)).

(** Modelled from the spec: steps 2 and 3 of section 4.4 (the selector's
    code is not among the sources).  Draw one shard at a time from the
    eligible pool until the copyset has the effective replication factor
    and every constraint is met; an exhausted pool is InsufficientShards. *)
Fixpoint sample (md : EpochMetaData) (health : NodeSetState)
    (remaining : nat) (chosen : list ShardID) (rng : RNG)
    : Outcome (list ShardID) * RNG :=
  match remaining with
  | O =>
      (if forallb (satisfiable chosen 0) (constraints (replication md))
       then Ok chosen
       else Fail (Reported InsufficientShards), rng)
  | S left_after =>
      let pool := filter (eligible md health chosen left_after) (shards md) in
      match draw rng (map (fun s => (s, shard_weight md s)) pool) with
      | None => (Fail (Reported InsufficientShards), rng)
      | Some (s, rng') => sample md health left_after (chosen ++ [s]) rng'
      end
  end.

Inductive Diagnostic : Type := BalanceWarning (logid : logid_t).

Record Selection : Type := mkSelection
  { selected : Outcome (list ShardID);
    rng_after : RNG;
    diagnostics : list Diagnostic }.

(** Step 4: the balance warning is emitted only when the selector was told
    to print bias warnings. *)
Definition bias_diagnostics (w : WeightedCopySetSelector)
    (load : ShardID -> N) : list Diagnostic :=
  if w_print_bias_warnings w && skewed load (w_epoch_metadata w)
  then [BalanceWarning (w_logid w)]
  else [].

(** Modelled from the spec: the selection of section 4.4 as a whole (the
    selector's code is not among the sources): validate, sample, and emit
    the diagnostic of step 4. *)
Definition select (w : WeightedCopySetSelector) (load : ShardID -> N)
    (rng : RNG) : Selection :=
  let md := w_epoch_metadata w in
  match w_nodeset_state w with
  | None => mkSelection (Fail NullDereference) rng []
  | Some health =>
      if forallb (enough_domains md) (constraints (replication md))
      then
        let r := sample md health (effective_factor (replication md)) [] rng in
        mkSelection (fst r) (snd r) (bias_diagnostics w load)
      else
        mkSelection (Fail (Reported InsufficientShards)) rng
                    (bias_diagnostics w load)
  end.

(** The same selector with the warning flag set to [b]. *)
Definition with_print_bias_warnings (b : bool) (w : WeightedCopySetSelector)
    : WeightedCopySetSelector :=
  {| w_logid := w_logid w;
     w_epoch_metadata := w_epoch_metadata w;
     w_nodeset_state := w_nodeset_state w;
     w_config := w_config w;
     w_my_node_id := w_my_node_id w;
     w_log_attrs := w_log_attrs w;
     w_locality_enabled := w_locality_enabled w;
     w_stats := w_stats w;
     w_init_rng := w_init_rng w;
     w_print_bias_warnings := b |}.


(** The scopes the factory accepts as failure domains for the cross-domain
    selector. *)
Definition accepted_domain_scope (s : NodeLocationScope) : bool :=
  match s with
  | RACK | ROW | CLUSTER | REGION => true
  | _ => false
  end.

(** The condition of the first branch of [create]. *)
Definition uses_weighted (epoch_metadata : EpochMetaData) (settings : Settings)
    : bool :=
  negb (hasValue (toOldRepresentation (replication epoch_metadata)))
  || negb (empty (weights epoch_metadata))
  || weighted_copyset_selector settings.

(** The test of the second branch of [create]. *)
Definition node_or_single_copy (lr : OldRepresentation) : bool :=
  scope_eqb (sync_replication_scope lr) NODE || N.eqb (replication_factor lr) 1.

(** The nodeset state a selector was constructed with. *)
Definition selector_nodeset_state (s : CopySetSelector)
    : shared_ptr NodeSetState :=
  match s with
  | Weighted w => w_nodeset_state w
  | Linear l => l_nodeset_state l
  | CrossDomain c => c_nodeset_state c
  end.

(** * Properties *)

Lemma scope_eqb_eq (a b : NodeLocationScope) : scope_eqb a b = true <-> a = b.
Proof.
  split.
  - destruct a, b; simpl; intro H; try reflexivity; discriminate H.
  - intros ->. destruct b; reflexivity.
Qed.

Lemma scope_eqb_neq (a b : NodeLocationScope) : scope_eqb a b = false <-> a <> b.
Proof.
  destruct (scope_eqb a b) eqn:E.
  - apply scope_eqb_eq in E. split; [discriminate | congruence].
  - split; [| reflexivity]. intros _ Hab. apply scope_eqb_eq in Hab. congruence.
Qed.

Lemma accepted_domain_scope_check (s : NodeLocationScope) :
  scope_eqb s RACK || scope_eqb s ROW || scope_eqb s CLUSTER || scope_eqb s REGION
  = accepted_domain_scope s.
Proof. destruct s; reflexivity. Qed.

Lemma ShardID_eqb_eq (a b : ShardID) : ShardID_eqb a b = true <-> a = b.
Proof.
  destruct a as [an ai], b as [bn bi]. unfold ShardID_eqb. simpl.
  rewrite andb_true_iff, !Z.eqb_eq. split.
  - intros [-> ->]. reflexivity.
  - intros H. injection H as -> ->. split; reflexivity.
Qed.

Lemma StorageSet_eqb_eq (a b : StorageSet) : StorageSet_eqb a b = true <-> a = b.
Proof.
  revert b. induction a as [| x a IH]; intros [| y b]; simpl.
  - split; reflexivity.
  - split; discriminate.
  - split; discriminate.
  - rewrite andb_true_iff, ShardID_eqb_eq, IH. split.
    + intros [-> ->]. reflexivity.
    + intros H. injection H as -> ->. split; reflexivity.
Qed.

Lemma writerView_spec (m : StorageMembership) (ns : StorageSet) (s : ShardID) :
  In s (writerView m ns) <-> In s ns /\ canWriteToShard m s = true.
Proof. unfold writerView. apply filter_In. Qed.

(** With both pointers set, [create] is its body after the two null checks. *)
Lemma create_non_null logid md ns cfg my_node_id log_attrs settings rng :
  create logid md (Some ns) (Some cfg) my_node_id log_attrs settings rng =
  if uses_weighted md settings then
    Ok (Weighted
          (mkWeightedCopySetSelector logid md (Some ns) (Some cfg) my_node_id
             log_attrs
             (scope_geb (getBiggestReplicationScope (replication md))
                        (copyset_locality_min_scope settings))
             Worker_stats rng
             (negb (isMetaDataLog logid) && negb (isInternal logid))))
  else
    lr <- value (toOldRepresentation (replication md)) ;;
    if scope_eqb (sync_replication_scope lr) NODE
       || N.eqb (replication_factor lr) 1
    then
      Ok (Linear
            (mkLinearCopySetSelector (replication_factor lr)
               (writerView (getStorageMembership
                              (getNodesConfigurationFromServerConfigSource cfg))
                           (shards md))
               (Some ns)))
    else
      ld_check
               (accepted_domain_scope (sync_replication_scope lr)) ;;;
      id <- value my_node_id ;;
      Ok (CrossDomain
            (mkCrossDomainCopySetSelector logid
               (writerView (getStorageMembership
                              (getNodesConfigurationFromServerConfigSource cfg))
                           (shards md))
               (Some ns) (Some cfg) id (replication_factor lr)
               (sync_replication_scope lr))).
Proof.
  unfold create, uses_weighted. simpl.
  destruct (negb (hasValue (toOldRepresentation (replication md)))
            || negb (empty (weights md)) || weighted_copyset_selector settings);
    [reflexivity |].
  destruct (toOldRepresentation (replication md)) as [lr |]; [| reflexivity].
  simpl.
  rewrite accepted_domain_scope_check. reflexivity.
Qed.

Lemma not_weighted md settings lr :
  toOldRepresentation (replication md) = Some lr ->
  weights md = [] ->
  weighted_copyset_selector settings = false ->
  uses_weighted md settings = false.
Proof.
  intros Hlr Hw Hs. unfold uses_weighted. rewrite Hlr, Hw, Hs. reflexivity.
Qed.

(** [create] has no path that hands an error of the taxonomy to its caller. *)
Lemma create_never_reports logid md nodeset_state config my_node_id log_attrs
    settings rng e :
  create logid md nodeset_state config my_node_id log_attrs settings rng
  <> Fail (Reported e).
Proof.
  unfold create, ld_check, getWritableShards, deref, value, bind.
  repeat match goal with
         | |- context [if ?b then _ else _] => destruct b
         | |- context [match ?o with Some _ => _ | None => _ end] => destruct o
         end; discriminate.
Qed.

(** C1.  When the replication property has no (factor, scope)
    representation, or the epoch metadata carries weights, or the setting
    [weighted_copyset_selector] is on, [create] (called with a nodeset state
    and a configuration) returns the weighted selector, constructed from the
    arguments of the call.  The test comes first: it holds whatever the
    (factor, scope) representation is. *)
Theorem create_weighted logid md ns cfg my_node_id log_attrs settings rng :
  toOldRepresentation (replication md) = None
  \/ weights md <> []
  \/ weighted_copyset_selector settings = true ->
  create logid md (Some ns) (Some cfg) my_node_id log_attrs settings rng =
  Ok (Weighted
        (mkWeightedCopySetSelector logid md (Some ns) (Some cfg) my_node_id
           log_attrs
           (scope_geb (getBiggestReplicationScope (replication md))
                      (copyset_locality_min_scope settings))
           Worker_stats rng
           (negb (isMetaDataLog logid) && negb (isInternal logid)))).
Proof.
  intros H. rewrite create_non_null.
  replace (uses_weighted md settings) with true; [reflexivity |].
  symmetry. unfold uses_weighted.
  destruct H as [H | [H | H]].
  - rewrite H. reflexivity.
  - destruct (weights md); [congruence |]. simpl. rewrite orb_true_r. reflexivity.
  - rewrite H. apply orb_true_r.
Qed.

(** C2.  When the replication property has a (factor, scope)
    representation, there are no weights and the setting is off, and the
    scope is NODE or the factor is 1, [create] returns the linear
    (unconstrained) selector over the writable view of the nodeset. *)
Theorem create_linear logid md ns cfg my_node_id log_attrs settings rng lr :
  toOldRepresentation (replication md) = Some lr ->
  weights md = [] ->
  weighted_copyset_selector settings = false ->
  sync_replication_scope lr = NODE \/ replication_factor lr = 1%N ->
  create logid md (Some ns) (Some cfg) my_node_id log_attrs settings rng =
  Ok (Linear
        (mkLinearCopySetSelector (replication_factor lr)
           (writerView (getStorageMembership
                          (getNodesConfigurationFromServerConfigSource cfg))
                       (shards md))
           (Some ns))).
Proof.
  intros Hlr Hw Hs Hcase. rewrite create_non_null.
  rewrite (not_weighted md settings Hlr Hw Hs), Hlr. simpl.
  replace (scope_eqb (sync_replication_scope lr) NODE
           || N.eqb (replication_factor lr) 1) with true; [reflexivity |].
  symmetry. destruct Hcase as [H | H].
  - rewrite H. reflexivity.
  - rewrite H. apply orb_true_r.
Qed.

(** C3, as the factory has it.  For a replication property with a
    (factor, scope) representation, no weights, the setting off, a factor
    above 1 and a scope other than NODE: when the scope is RACK, ROW,
    CLUSTER or REGION and the caller's node id is supplied, [create]
    returns the cross-domain selector over the writable view of the
    nodeset; for any other scope the [ld_check] on the scope fails, and
    where failed checks abort the call ends there.  No error is handed to
    the caller in either case. *)
Theorem create_cross_domain logid md ns cfg my_node_id log_attrs settings rng lr :
  toOldRepresentation (replication md) = Some lr ->
  weights md = [] ->
  weighted_copyset_selector settings = false ->
  (1 < replication_factor lr)%N ->
  sync_replication_scope lr <> NODE ->
  (accepted_domain_scope (sync_replication_scope lr) = true ->
   forall id, my_node_id = Some id ->
     create logid md (Some ns) (Some cfg) my_node_id log_attrs settings rng =
     Ok (CrossDomain
           (mkCrossDomainCopySetSelector logid
              (writerView (getStorageMembership
                             (getNodesConfigurationFromServerConfigSource cfg))
                          (shards md))
              (Some ns) (Some cfg) id (replication_factor lr)
              (sync_replication_scope lr))))
  /\ (accepted_domain_scope (sync_replication_scope lr) = false ->
      abortOnFailedCheck = true ->
      create logid md (Some ns) (Some cfg) my_node_id log_attrs settings rng =
      Fail FailedCheckAbort)
  /\ (forall e,
      create logid md (Some ns) (Some cfg) my_node_id log_attrs settings rng
      <> Fail (Reported e)).
Proof.
  intros Hlr Hw Hs Hf Hscope.
  assert (Hbody :
    create logid md (Some ns) (Some cfg) my_node_id log_attrs settings rng =
    (ld_check
              (accepted_domain_scope (sync_replication_scope lr)) ;;;
     id <- value my_node_id ;;
     Ok (CrossDomain
           (mkCrossDomainCopySetSelector logid
              (writerView (getStorageMembership
                             (getNodesConfigurationFromServerConfigSource cfg))
                          (shards md))
              (Some ns) (Some cfg) id (replication_factor lr)
              (sync_replication_scope lr))))).
  { rewrite create_non_null.
    rewrite (not_weighted md settings Hlr Hw Hs), Hlr. simpl.
    apply scope_eqb_neq in Hscope. rewrite Hscope.
    replace (N.eqb (replication_factor lr) 1) with false; [reflexivity |].
    symmetry. apply N.eqb_neq. lia. }
  split; [| split].
  - intros Hacc id Hid. rewrite Hbody, Hacc, Hid. reflexivity.
  - intros Hacc Habort. rewrite Hbody, Hacc. unfold ld_check.
    rewrite Habort. reflexivity.
  - intros e. apply create_never_reports.
Qed.

(** C4, as the factory has it.  On the same inputs, but without the
    caller's node id: [create] neither returns a selector nor hands an
    error to its caller.  Unwrapping the absent node id throws the
    empty-optional exception; when the scope is not an accepted one and
    failed checks abort, the check on the scope aborts before that. *)
Theorem create_without_node_id logid md ns cfg log_attrs settings rng lr :
  toOldRepresentation (replication md) = Some lr ->
  weights md = [] ->
  weighted_copyset_selector settings = false ->
  (1 < replication_factor lr)%N ->
  sync_replication_scope lr <> NODE ->
  create logid md (Some ns) (Some cfg) None log_attrs settings rng =
  (if accepted_domain_scope (sync_replication_scope lr)
      || negb abortOnFailedCheck
   then Fail OptionalEmptyException
   else Fail FailedCheckAbort)
  /\ create logid md (Some ns) (Some cfg) None log_attrs settings rng
     <> Fail (Reported InvalidConfiguration).
Proof.
  intros Hlr Hw Hs Hf Hscope. split; [| apply create_never_reports].
  rewrite create_non_null.
  rewrite (not_weighted md settings Hlr Hw Hs), Hlr. simpl.
  apply scope_eqb_neq in Hscope. rewrite Hscope.
  replace (N.eqb (replication_factor lr) 1) with false
    by (symmetry; apply N.eqb_neq; lia).
  simpl. unfold ld_check.
  destruct (accepted_domain_scope (sync_replication_scope lr));
    destruct abortOnFailedCheck; reflexivity.
Qed.

(** A failure of [create] is the failure of [createManager]. *)
Lemma createManager_fails logid md nodeset_state config my_node_id log_attrs
    settings sticky size max_time f :
  create logid md nodeset_state config my_node_id log_attrs settings
          DefaultRNG_get = Fail f ->
  createManager logid md nodeset_state config my_node_id log_attrs settings
                 sticky size max_time = Fail f.
Proof. intros H. unfold createManager. rewrite H. reflexivity. Qed.

(** C5.  Whenever [create], called with the arguments of [createManager]
    and the default generator, returns a selector, [createManager] (with a
    configuration to dereference) returns a manager that wraps exactly that
    selector; with the sticky flag it is the sticky manager with the given
    block size and maximum block time, and the pass-through manager
    otherwise. *)
Theorem createManager_variant logid md nodeset_state cfg my_node_id log_attrs
    settings sticky size max_time sel :
  create logid md nodeset_state (Some cfg) my_node_id log_attrs settings
          DefaultRNG_get = Ok sel ->
  exists m,
    createManager logid md nodeset_state (Some cfg) my_node_id log_attrs
                   settings sticky size max_time = Ok m
    /\ underlying_selector m = sel
    /\ m_nodeset_state m = nodeset_state
    /\ variant m = (if sticky then StickyCopySetManager size max_time
                    else PassThroughCopySetManager).
Proof.
  intros H. unfold createManager. rewrite H. simpl.
  eexists. split; [reflexivity |].
  destruct sticky; simpl; repeat split.
Qed.

(** C6.  Whenever [create] returns the weighted selector, locality is
    enabled in it exactly when the biggest replication scope of the
    replication property is at or above the setting
    [copyset_locality_min_scope]. *)
Theorem weighted_locality_enabled logid md nodeset_state config my_node_id
    log_attrs settings rng w :
  create logid md nodeset_state config my_node_id log_attrs settings rng =
  Ok (Weighted w) ->
  (w_locality_enabled w = true <->
   scope_le (copyset_locality_min_scope settings)
            (getBiggestReplicationScope (replication md))).
Proof.
  unfold create, ld_check, getWritableShards, deref, value, bind, scope_le.
  intros H.
  repeat match type of H with
         | context [if ?b then _ else _] => destruct b
         | context [match ?o with Some _ => _ | None => _ end] => destruct o
         | Ok _ = Ok _ => injection H as H
         | Weighted _ = Weighted _ => injection H as H
         end; try discriminate; subst w; simpl; unfold scope_geb;
    apply N.leb_le.
Qed.

(** What the selector [create] returns was constructed over. *)
Lemma create_inversion logid md nodeset_state config my_node_id log_attrs
    settings rng sel :
  create logid md nodeset_state config my_node_id log_attrs settings rng =
  Ok sel ->
  match sel with
  | Weighted w =>
      uses_weighted md settings = true
      /\ w = mkWeightedCopySetSelector logid md nodeset_state config my_node_id
               log_attrs
               (scope_geb (getBiggestReplicationScope (replication md))
                          (copyset_locality_min_scope settings))
               Worker_stats rng
               (negb (isMetaDataLog logid) && negb (isInternal logid))
  | Linear l =>
      uses_weighted md settings = false
      /\ exists cfg, config = Some cfg
         /\ l_nodeset l =
            writerView (getStorageMembership
                          (getNodesConfigurationFromServerConfigSource cfg))
                       (shards md)
  | CrossDomain c =>
      uses_weighted md settings = false
      /\ exists cfg, config = Some cfg
         /\ c_nodeset c =
            writerView (getStorageMembership
                          (getNodesConfigurationFromServerConfigSource cfg))
                       (shards md)
  end.
Proof.
  unfold create, uses_weighted, ld_check, getWritableShards, deref, value, bind.
  intros H.
  destruct (negb (hasValue (toOldRepresentation (replication md)))
            || negb (empty (weights md)) || weighted_copyset_selector settings).
  - repeat match type of H with
           | context [if ?b then _ else _] => destruct b
           end; try discriminate; injection H as <-; split; reflexivity.
  - repeat match type of H with
           | context [if ?b then _ else _] => destruct b
           | context [match ?o with Some _ => _ | None => _ end] => destruct o
           end; try discriminate; injection H as <-; simpl;
      (split; [reflexivity | eexists; split; reflexivity]).
Qed.

(** C8.  Every manager [createManager] returns, sticky or pass-through, has
    its config match check prepared with the nodeset of the epoch metadata
    and the configuration given to the factory; the check then answers,
    for any current configuration, with a boolean that is true exactly when
    the writable view of that nodeset is the one recorded: a mismatch is
    the answer [false], not a failure. *)
Theorem createManager_prepares_check logid md nodeset_state config my_node_id
    log_attrs settings sticky size max_time m :
  createManager logid md nodeset_state config my_node_id log_attrs settings
                 sticky size max_time = Ok m ->
  exists cfg,
    config = Some cfg
    /\ full_nodeset m = shards md
    /\ effective_nodeset m =
       writerView (getStorageMembership
                     (getNodesConfigurationFromServerConfigSource cfg))
                  (shards md)
    /\ forall current,
       exists b,
         checkConfigConsistency m current = Ok b
         /\ (b = true <->
             writerView (getStorageMembership
                           (getNodesConfigurationFromServerConfigSource current))
                        (shards md)
             = writerView (getStorageMembership
                             (getNodesConfigurationFromServerConfigSource cfg))
                          (shards md)).
Proof.
  unfold createManager. intros H.
  destruct (create logid md nodeset_state config my_node_id log_attrs settings
              DefaultRNG_get) as [sel | f]; [| discriminate H].
  destruct config as [cfg |]; [| discriminate H].
  simpl in H. injection H as <-.
  exists cfg. repeat split.
  intros current. eexists. split; [reflexivity |].
  simpl. apply StorageSet_eqb_eq.
Qed.

(** C9.  The selector [create] returns is constructed as follows.  The
    weighted selector receives the epoch metadata as given, so its shards
    are the whole nodeset, writable or not.  The linear and the cross-domain
    selector receive the writable view of the nodeset under the
    configuration: exactly the shards of the nodeset that the storage
    membership allows writes to. *)
Theorem create_candidates logid md nodeset_state config my_node_id log_attrs
    settings rng sel :
  create logid md nodeset_state config my_node_id log_attrs settings rng =
  Ok sel ->
  match sel with
  | Weighted w =>
      w_epoch_metadata w = md /\ candidates sel = shards md
  | Linear _ | CrossDomain _ =>
      exists cfg,
        config = Some cfg
        /\ candidates sel =
           writerView (getStorageMembership
                         (getNodesConfigurationFromServerConfigSource cfg))
                      (shards md)
        /\ forall s,
           In s (candidates sel) <->
           In s (shards md)
           /\ canWriteToShard
                (getStorageMembership
                   (getNodesConfigurationFromServerConfigSource cfg)) s = true
  end.
Proof.
  intros H. apply create_inversion in H.
  destruct sel as [w | l | c]; simpl.
  - destruct H as [_ ->]. split; reflexivity.
  - destruct H as [_ [cfg [Hc Hl]]]. exists cfg. rewrite Hl.
    split; [assumption |]. split; [reflexivity |].
    intros s. apply writerView_spec.
  - destruct H as [_ [cfg [Hc Hl]]]. exists cfg. rewrite Hl.
    split; [assumption |]. split; [reflexivity |].
    intros s. apply writerView_spec.
Qed.

(** The warning flag has no part in the selection. *)
Lemma select_ignores_warning_flag w b load rng :
  selected (select (with_print_bias_warnings b w) load rng)
  = selected (select w load rng)
  /\ rng_after (select (with_print_bias_warnings b w) load rng)
     = rng_after (select w load rng).
Proof.
  unfold select. simpl.
  destruct (w_nodeset_state w) as [health |]; [| split; reflexivity].
  destruct (forallb _ _); split; reflexivity.
Qed.

Lemma select_quiet w load rng :
  w_print_bias_warnings w = false ->
  diagnostics (select w load rng) = [].
Proof.
  intros H. unfold select, bias_diagnostics. rewrite H. simpl.
  destruct (w_nodeset_state w) as [health |]; [| reflexivity].
  destruct (forallb _ _); reflexivity.
Qed.

(** C7.  Whenever [create] returns the weighted selector, bias warnings are
    enabled in it exactly when the log is neither a metadata log nor an
    internal log.  The flag only governs the diagnostic: the copyset the
    selector picks, and the generator state it leaves, are the same
    whatever the flag, and with the flag off no diagnostic is emitted. *)
Theorem weighted_print_bias_warnings logid md nodeset_state config my_node_id
    log_attrs settings rng w :
  create logid md nodeset_state config my_node_id log_attrs settings rng =
  Ok (Weighted w) ->
  (w_print_bias_warnings w = true <->
   isMetaDataLog logid = false /\ isInternal logid = false)
  /\ (forall b load r,
        selected (select (with_print_bias_warnings b w) load r)
        = selected (select w load r)
        /\ rng_after (select (with_print_bias_warnings b w) load r)
           = rng_after (select w load r))
  /\ (w_print_bias_warnings w = false ->
      forall load r, diagnostics (select w load r) = []).
Proof.
  intros H. apply create_inversion in H. destruct H as [_ ->]. simpl.
  split; [| split].
  - rewrite andb_true_iff, !negb_true_iff. apply iff_refl.
  - intros b load r. apply select_ignores_warning_flag.
  - intros Hoff load r. apply select_quiet. exact Hoff.
Qed.

(** ** Further properties of the factory *)

(** [create] as a decision tree over its inputs, null pointers included. *)
Lemma create_normal_form logid md nodeset_state config my_node_id log_attrs
    settings rng :
  create logid md nodeset_state config my_node_id log_attrs settings rng =
  if abortOnFailedCheck && negb (non_null nodeset_state && non_null config)
  then Fail FailedCheckAbort
  else if uses_weighted md settings then
    Ok (Weighted
          (mkWeightedCopySetSelector logid md nodeset_state config my_node_id
             log_attrs
             (scope_geb (getBiggestReplicationScope (replication md))
                        (copyset_locality_min_scope settings))
             Worker_stats rng
             (negb (isMetaDataLog logid) && negb (isInternal logid))))
  else
    match toOldRepresentation (replication md) with
    | None => Fail OptionalEmptyException
    | Some lr =>
        if node_or_single_copy lr then
          match config with
          | None => Fail NullDereference
          | Some cfg =>
              Ok (Linear
                    (mkLinearCopySetSelector (replication_factor lr)
                       (writerView
                          (getStorageMembership
                             (getNodesConfigurationFromServerConfigSource cfg))
                          (shards md))
                       nodeset_state))
          end
        else if abortOnFailedCheck
                && negb (accepted_domain_scope (sync_replication_scope lr))
        then Fail FailedCheckAbort
        else
          match config with
          | None => Fail NullDereference
          | Some cfg =>
              match my_node_id with
              | None => Fail OptionalEmptyException
              | Some id =>
                  Ok (CrossDomain
                        (mkCrossDomainCopySetSelector logid
                           (writerView
                              (getStorageMembership
                                 (getNodesConfigurationFromServerConfigSource
                                    cfg))
                              (shards md))
                           nodeset_state config id (replication_factor lr)
                           (sync_replication_scope lr)))
              end
          end
    end.
Proof.
  unfold create, uses_weighted, node_or_single_copy, ld_check,
    getWritableShards, deref, value, bind.
  destruct abortOnFailedCheck, nodeset_state as [ns |], config as [cfg |];
    simpl; try reflexivity;
    destruct (negb (hasValue (toOldRepresentation (replication md)))
              || negb (empty (weights md)) || weighted_copyset_selector settings);
    try reflexivity;
    destruct (toOldRepresentation (replication md)) as [lr |];
    try reflexivity; simpl;
    destruct (scope_eqb (sync_replication_scope lr) NODE
              || N.eqb (replication_factor lr) 1);
    try reflexivity;
    rewrite accepted_domain_scope_check;
    destruct (accepted_domain_scope (sync_replication_scope lr));
    simpl; try reflexivity;
    destruct my_node_id; reflexivity.
Qed.

Lemma uses_weighted_without_representation md settings :
  toOldRepresentation (replication md) = None ->
  uses_weighted md settings = true.
Proof. intros H. unfold uses_weighted. rewrite H. reflexivity. Qed.

Lemma node_or_single_copy_iff lr :
  node_or_single_copy lr = true <->
  sync_replication_scope lr = NODE \/ replication_factor lr = 1%N.
Proof.
  unfold node_or_single_copy.
  rewrite orb_true_iff, scope_eqb_eq, N.eqb_eq. apply iff_refl.
Qed.

Lemma node_or_single_copy_false lr :
  node_or_single_copy lr = false <->
  sync_replication_scope lr <> NODE /\ replication_factor lr <> 1%N.
Proof.
  unfold node_or_single_copy.
  rewrite orb_false_iff, scope_eqb_neq, N.eqb_neq. apply iff_refl.
Qed.

Lemma null_checks_pass (nodeset_state : shared_ptr NodeSetState)
    (config : shared_ptr ServerConfig) :
  abortOnFailedCheck && negb (non_null nodeset_state && non_null config) = false
  <-> (abortOnFailedCheck = true -> nodeset_state <> None /\ config <> None).
Proof.
  destruct abortOnFailedCheck, nodeset_state, config; simpl; split;
    try reflexivity; try discriminate;
    try (intros _ _; split; discriminate);
    intros H; destruct (H eq_refl) as [H1 H2]; congruence.
Qed.

Lemma scope_check_pass (s : NodeLocationScope) :
  abortOnFailedCheck && negb (accepted_domain_scope s) = false
  <-> (abortOnFailedCheck = true -> accepted_domain_scope s = true).
Proof.
  destruct abortOnFailedCheck, (accepted_domain_scope s); simpl; split;
    try reflexivity; try discriminate;
    try (intros _ _; reflexivity);
    intros H; specialize (H eq_refl); discriminate H.
Qed.

(** Case analysis on the decision tree of [create] in a hypothesis. *)
Ltac create_tree H :=
  rewrite create_normal_form in H;
  repeat match type of H with
         | context [if ?b then _ else _] => destruct b eqn:?
         | context [match ?o with Some _ => _ | None => _ end] =>
             destruct o eqn:?
         end;
  try discriminate H.

(** X1.  The selector [create] returns tells which branch was taken.  A
    weighted selector is returned only when the replication property has no
    (factor, scope) representation, weights are present or the setting is
    on; a linear selector only when the scope is NODE or the factor is 1; a
    cross-domain selector only when the scope is not NODE and the factor is
    not 1.  The factor and the scope of the selector are those of the
    (factor, scope) representation. *)
Theorem create_selector_sound logid md nodeset_state config my_node_id
    log_attrs settings rng sel :
  create logid md nodeset_state config my_node_id log_attrs settings rng =
  Ok sel ->
  match sel with
  | Weighted _ => uses_weighted md settings = true
  | Linear l =>
      uses_weighted md settings = false
      /\ exists lr,
           toOldRepresentation (replication md) = Some lr
           /\ (sync_replication_scope lr = NODE \/ replication_factor lr = 1%N)
           /\ l_replication_factor l = replication_factor lr
  | CrossDomain c =>
      uses_weighted md settings = false
      /\ exists lr,
           toOldRepresentation (replication md) = Some lr
           /\ sync_replication_scope lr <> NODE
           /\ replication_factor lr <> 1%N
           /\ c_replication_factor c = replication_factor lr
           /\ c_sync_replication_scope c = sync_replication_scope lr
  end.
Proof.
  intros H. create_tree H; injection H as <-; simpl.
  - reflexivity.
  - split; [reflexivity |]. eexists. split; [reflexivity |].
    split; [| reflexivity]. apply node_or_single_copy_iff. assumption.
  - split; [reflexivity |]. eexists. split; [reflexivity |].
    match goal with
    | E : node_or_single_copy _ = false |- _ =>
        apply node_or_single_copy_false in E; destruct E as [Hs Hf]
    end.
    repeat split; assumption.
Qed.

(** X2.  A cross-domain selector is never constructed without the caller's
    node id: whenever [create] returns one, [my_node_id] was supplied and is
    the id in the selector, and the selector has the log id and the
    configuration pointer of the call.  Where failed checks abort, its scope
    is one of RACK, ROW, CLUSTER and REGION. *)
Theorem create_cross_domain_sound logid md nodeset_state config my_node_id
    log_attrs settings rng c :
  create logid md nodeset_state config my_node_id log_attrs settings rng =
  Ok (CrossDomain c) ->
  my_node_id = Some (c_my_node_id c)
  /\ c_logid c = logid
  /\ c_config c = config
  /\ (abortOnFailedCheck = true ->
      c_sync_replication_scope c = RACK \/ c_sync_replication_scope c = ROW
      \/ c_sync_replication_scope c = CLUSTER
      \/ c_sync_replication_scope c = REGION).
Proof.
  intros H. create_tree H; injection H as <-; simpl.
  repeat split; try reflexivity.
  intros Habort.
  match goal with
  | E : abortOnFailedCheck && negb (accepted_domain_scope _) = false |- _ =>
      rewrite Habort in E; simpl in E; apply negb_false_iff in E;
      destruct (sync_replication_scope _); try discriminate E; auto
  end.
Qed.

(** X3.  When [create] returns.  It returns a selector exactly when the
    null checks let it through (the pointers are set, or failed checks do
    not abort) and either the weighted branch is taken, or the
    configuration is set and the linear branch is taken, or the
    configuration is set, the node id is supplied and the check on the
    scope lets it through.  The factor is not looked at beyond the test for
    1. *)
Theorem create_returns_iff logid md nodeset_state config my_node_id log_attrs
    settings rng :
  (exists sel,
     create logid md nodeset_state config my_node_id log_attrs settings rng
     = Ok sel)
  <->
  (abortOnFailedCheck = true -> nodeset_state <> None /\ config <> None)
  /\ (uses_weighted md settings = true
      \/ exists lr,
           toOldRepresentation (replication md) = Some lr
           /\ config <> None
           /\ ((sync_replication_scope lr = NODE
                \/ replication_factor lr = 1%N)
               \/ ((abortOnFailedCheck = true ->
                    accepted_domain_scope (sync_replication_scope lr) = true)
                   /\ my_node_id <> None))).
Proof.
  split.
  - intros [sel H]. create_tree H;
      (split; [apply null_checks_pass; assumption |]).
    + left. reflexivity.
    + right. eexists. split; [reflexivity |]. split; [discriminate |].
      left. apply node_or_single_copy_iff. assumption.
    + right. eexists. split; [reflexivity |]. split; [discriminate |].
      right. split; [apply scope_check_pass; assumption | discriminate].
  - intros [Hp Hb]. rewrite create_normal_form.
    rewrite (proj2 (null_checks_pass nodeset_state config) Hp).
    destruct (uses_weighted md settings); [eexists; reflexivity |].
    destruct Hb as [Hw | [lr [Hlr [Hc Hrest]]]]; [discriminate Hw |].
    rewrite Hlr. destruct config as [cfg |]; [| congruence].
    destruct Hrest as [Hn | [Hacc Hid]].
    + rewrite (proj2 (node_or_single_copy_iff lr) Hn). eexists; reflexivity.
    + destruct (node_or_single_copy lr); [eexists; reflexivity |].
      rewrite (proj2 (scope_check_pass (sync_replication_scope lr)) Hacc).
      destruct my_node_id; [eexists; reflexivity | congruence].
Qed.

(** X4.  How [create] fails when the configuration is set.  It fails in two
    ways only.  It aborts on a failed check, which needs failed checks to
    abort and either a null nodeset state or, in the cross-domain branch, a
    scope that is not accepted.  Or it throws the empty-optional exception,
    which needs the cross-domain branch and a missing node id.  It never
    dereferences a null pointer and never reports an error. *)
Theorem create_failure_causes logid md nodeset_state cfg my_node_id log_attrs
    settings rng f :
  create logid md nodeset_state (Some cfg) my_node_id log_attrs settings rng =
  Fail f ->
  (f = FailedCheckAbort
   /\ abortOnFailedCheck = true
   /\ (nodeset_state = None
       \/ (uses_weighted md settings = false
           /\ exists lr,
                toOldRepresentation (replication md) = Some lr
                /\ sync_replication_scope lr <> NODE
                /\ replication_factor lr <> 1%N
                /\ accepted_domain_scope (sync_replication_scope lr) = false)))
  \/ (f = OptionalEmptyException
      /\ my_node_id = None
      /\ uses_weighted md settings = false
      /\ exists lr,
           toOldRepresentation (replication md) = Some lr
           /\ sync_replication_scope lr <> NODE
           /\ replication_factor lr <> 1%N).
Proof.
  intros H. rewrite create_normal_form in H.
  destruct (abortOnFailedCheck && negb (non_null nodeset_state && non_null (Some cfg)))
    eqn:Hnull.
  { injection H as <-. left. split; [reflexivity |].
    destruct abortOnFailedCheck; [| discriminate Hnull].
    split; [reflexivity |]. left.
    destruct nodeset_state; [discriminate Hnull | reflexivity]. }
  destruct (uses_weighted md settings) eqn:Hw; [discriminate H |].
  destruct (toOldRepresentation (replication md)) as [lr |] eqn:Hlr.
  2:{ rewrite (uses_weighted_without_representation md settings Hlr) in Hw.
      discriminate Hw. }
  destruct (node_or_single_copy lr) eqn:Hn; [discriminate H |].
  apply node_or_single_copy_false in Hn. destruct Hn as [Hs Hf].
  destruct (abortOnFailedCheck
            && negb (accepted_domain_scope (sync_replication_scope lr)))
    eqn:Hscope.
  - injection H as <-. left. split; [reflexivity |].
    apply andb_true_iff in Hscope. destruct Hscope as [Habort Hacc].
    apply negb_true_iff in Hacc.
    split; [exact Habort |]. right. split; [reflexivity |].
    exists lr. repeat split; assumption.
  - destruct my_node_id; [discriminate H |].
    injection H as <-. right. repeat split.
    exists lr. repeat split; assumption.
Qed.

(** X5.  Null pointers.  When the nodeset state or the configuration is
    null and failed checks abort, [create] aborts whatever its other
    arguments.  When failed checks do not abort, the weighted branch hands
    the pointers on, null or not, to the selector it returns. *)
Theorem create_null_pointer logid md nodeset_state config my_node_id log_attrs
    settings rng :
  nodeset_state = None \/ config = None ->
  (abortOnFailedCheck = true ->
   create logid md nodeset_state config my_node_id log_attrs settings rng =
   Fail FailedCheckAbort)
  /\ (abortOnFailedCheck = false ->
      uses_weighted md settings = true ->
      create logid md nodeset_state config my_node_id log_attrs settings rng =
      Ok (Weighted
            (mkWeightedCopySetSelector logid md nodeset_state config my_node_id
               log_attrs
               (scope_geb (getBiggestReplicationScope (replication md))
                          (copyset_locality_min_scope settings))
               Worker_stats rng
               (negb (isMetaDataLog logid) && negb (isInternal logid))))).
Proof.
  intros Hnull. rewrite create_normal_form. split.
  - intros ->. simpl.
    destruct Hnull as [-> | ->]; [reflexivity |].
    destruct nodeset_state; reflexivity.
  - intros -> ->. reflexivity.
Qed.

(** X7.  How [createManager] fails.  It fails as [create] does, with the
    same failure; beyond that it fails only by dereferencing a null
    configuration that [create] let through, which needs checks that do not
    abort and the weighted branch. *)
Theorem createManager_failure logid md nodeset_state config my_node_id
    log_attrs settings sticky size max_time f :
  createManager logid md nodeset_state config my_node_id log_attrs settings
                sticky size max_time = Fail f
  <->
  create logid md nodeset_state config my_node_id log_attrs settings
         DefaultRNG_get = Fail f
  \/ (f = NullDereference
      /\ config = None
      /\ abortOnFailedCheck = false
      /\ uses_weighted md settings = true
      /\ exists sel,
           create logid md nodeset_state config my_node_id log_attrs settings
                  DefaultRNG_get = Ok sel).
Proof.
  unfold createManager.
  destruct (create logid md nodeset_state config my_node_id log_attrs settings
              DefaultRNG_get) as [sel | f'] eqn:Hc; simpl.
  - destruct config as [cfg |]; simpl.
    + split; [discriminate |].
      intros [H | [_ [H _]]]; discriminate H.
    + split.
      * intros H. injection H as <-. right.
        pose proof Hc as Hc'. create_tree Hc'.
        match goal with
        | E : abortOnFailedCheck && _ = false |- _ =>
            rewrite andb_comm in E; simpl in E;
            rewrite andb_false_r in E; simpl in E
        end.
        repeat split; try assumption.
        exists sel. reflexivity.
      * intros [H | [-> _]]; [discriminate H | reflexivity].
  - split.
    + intros H. injection H as <-. left. reflexivity.
    + intros [H | [_ [_ [_ [_ [sel H]]]]]]; [| discriminate H].
      injection H as <-. reflexivity.
Qed.

(** X8.  The manager and the selector it wraps share the nodeset state:
    whatever [createManager] returns holds the pointer given to the
    factory, and so does its selector; a weighted selector inside a manager
    was seeded from the default generator. *)
Theorem createManager_shares_nodeset_state logid md nodeset_state config
    my_node_id log_attrs settings sticky size max_time m :
  createManager logid md nodeset_state config my_node_id log_attrs settings
                sticky size max_time = Ok m ->
  m_nodeset_state m = nodeset_state
  /\ selector_nodeset_state (underlying_selector m) = nodeset_state
  /\ (forall w, underlying_selector m = Weighted w ->
                w_init_rng w = DefaultRNG_get).
Proof.
  unfold createManager. intros H.
  destruct (create logid md nodeset_state config my_node_id log_attrs settings
              DefaultRNG_get) as [sel | f'] eqn:Hc; [| discriminate H].
  destruct config as [cfg |]; [| discriminate H].
  simpl in H. injection H as <-.
  create_tree Hc; injection Hc as <-;
    (split; [destruct sticky; reflexivity |]);
    destruct sticky; simpl;
    (split; [reflexivity |]); intros w Hw;
    first [ discriminate Hw | injection Hw as <-; reflexivity ].
Qed.

End Factory.


(** * The properties on the sample cluster *)

(** The config match check on the sample manager: the configuration it was
    prepared with matches, the later one, with node 1 read-only, does not. *)
Example config_match_reported :
  checkConfigConsistency sample_sticky_manager sample_config = Ok true.
Proof. reflexivity. Qed.

Example config_mismatch_reported :
  checkConfigConsistency sample_sticky_manager sample_config_later = Ok false.
Proof. reflexivity. Qed.

(** Weighted selection on the sample cluster: three shards over two racks;
    with no writable shard the pool is exhausted. *)
Example weighted_selection_sample :
  selected
    (select sample_domain_of sample_constraints sample_effective_factor
       sample_shard_weight sample_draw sample_skewed
       (sample_weighted weighted_metadata false) (fun _ => 0%N) 7)
  = Ok [N_ 0; N_ 1; N_ 2]%Z.
Proof. vm_compute. reflexivity. Qed.

Example weighted_selection_insufficient :
  selected
    (select sample_domain_of sample_constraints sample_effective_factor
       sample_shard_weight sample_draw sample_skewed
       (mkWeightedCopySetSelector 1 weighted_metadata
          (Some (mkNodeSetState (fun _ => false))) (Some sample_config)
          None None false sample_stats 7 true)
       (fun _ => 0%N) 7)
  = Fail (Reported InsufficientShards).
Proof. vm_compute. reflexivity. Qed.

(** Weights on a node-scope, factor-2 property: the weighted selector. *)
Lemma create_weighted_witness :
  (toOldRepresentation (replication weighted_metadata) = None
   \/ weights weighted_metadata <> []
   \/ weighted_copyset_selector sample_settings = true)
  /\ create true sample_isMetaDataLog sample_isInternal sample_stats
       1 weighted_metadata (Some sample_health) (Some sample_config)
       None None sample_settings 7
     = Ok (Weighted (sample_weighted weighted_metadata false)).
Proof.
  assert (H : toOldRepresentation (replication weighted_metadata) = None
              \/ weights weighted_metadata <> []
              \/ weighted_copyset_selector sample_settings = true).
  { right. left. simpl. discriminate. }
  split; [exact H |].
  exact (create_weighted true sample_isMetaDataLog sample_isInternal
           sample_stats 1 weighted_metadata sample_health sample_config
           None None sample_settings 7 H).
Defined.

(** Five shards, node scope, factor 3: the linear selector over the four
    writable shards. *)
Lemma create_linear_witness :
  toOldRepresentation (replication node_metadata)
  = Some (mkOldRepresentation 3 NODE)
  /\ weights node_metadata = []
  /\ weighted_copyset_selector sample_settings = false
  /\ create true sample_isMetaDataLog sample_isInternal sample_stats
       1 node_metadata (Some sample_health) (Some sample_config)
       None None sample_settings 7
     = Ok sample_linear.
Proof.
  repeat (split; [reflexivity |]).
  exact (create_linear true sample_isMetaDataLog sample_isInternal
           sample_stats 1 node_metadata sample_health sample_config
           None None sample_settings 7
           (lr := mkOldRepresentation 3 NODE)
           eq_refl eq_refl eq_refl (or_introl eq_refl)).
Defined.

(** C3 as stated fails: on a data-center scope with factor 2 the factory
    reports no invalid configuration.  Where failed checks abort, it aborts
    on its check of the scope; where they do not, it returns a cross-domain
    selector for that scope. *)
Lemma create_unaccepted_scope_counterexample :
  create true sample_isMetaDataLog sample_isInternal sample_stats
    1 data_center_metadata (Some sample_health) (Some sample_config)
    (Some sample_node_id) None sample_settings 7
  = Fail FailedCheckAbort
  /\ create true sample_isMetaDataLog sample_isInternal sample_stats
       1 data_center_metadata (Some sample_health) (Some sample_config)
       (Some sample_node_id) None sample_settings 7
     <> Fail (Reported InvalidConfiguration)
  /\ create false sample_isMetaDataLog sample_isInternal sample_stats
       1 data_center_metadata (Some sample_health) (Some sample_config)
       (Some sample_node_id) None sample_settings 7
     = Ok sample_cross_data_center.
Proof.
  split; [reflexivity |].
  split; [vm_compute; discriminate | reflexivity].
Qed.

(** Rack scope with factor 2 and a node id: the cross-domain selector. *)
Lemma create_cross_domain_witness :
  toOldRepresentation (replication rack_metadata)
  = Some (mkOldRepresentation 2 RACK)
  /\ weights rack_metadata = []
  /\ weighted_copyset_selector sample_settings = false
  /\ (1 < 2)%N
  /\ RACK <> NODE
  /\ create true sample_isMetaDataLog sample_isInternal sample_stats
       1 rack_metadata (Some sample_health) (Some sample_config)
       (Some sample_node_id) None sample_settings 7
     = Ok sample_cross_domain.
Proof.
  assert (Hf : (1 < 2)%N) by lia.
  assert (Hs : RACK <> NODE) by discriminate.
  repeat (split; [reflexivity || assumption |]).
  exact (proj1 (create_cross_domain true sample_isMetaDataLog
                  sample_isInternal sample_stats 1 rack_metadata
                  sample_health sample_config (Some sample_node_id) None
                  sample_settings 7 (lr := mkOldRepresentation 2 RACK)
                  eq_refl eq_refl eq_refl Hf Hs)
               eq_refl sample_node_id eq_refl).
Defined.

(** C4 as stated fails: rack scope with factor 2 and no node id ends in the
    empty-optional exception, not in a reported invalid configuration. *)
Lemma create_without_node_id_counterexample :
  create true sample_isMetaDataLog sample_isInternal sample_stats
    1 rack_metadata (Some sample_health) (Some sample_config)
    None None sample_settings 7
  = Fail OptionalEmptyException
  /\ create true sample_isMetaDataLog sample_isInternal sample_stats
       1 rack_metadata (Some sample_health) (Some sample_config)
       None None sample_settings 7
     <> Fail (Reported InvalidConfiguration).
Proof.
  split; [reflexivity | vm_compute; discriminate].
Qed.

Lemma create_without_node_id_witness :
  toOldRepresentation (replication rack_metadata)
  = Some (mkOldRepresentation 2 RACK)
  /\ weights rack_metadata = []
  /\ weighted_copyset_selector sample_settings = false
  /\ (1 < 2)%N
  /\ RACK <> NODE
  /\ create true sample_isMetaDataLog sample_isInternal sample_stats
       1 rack_metadata (Some sample_health) (Some sample_config)
       None None sample_settings 7
     = Fail OptionalEmptyException.
Proof.
  assert (Hf : (1 < 2)%N) by lia.
  assert (Hs : RACK <> NODE) by discriminate.
  repeat (split; [reflexivity || assumption |]).
  exact (proj1 (create_without_node_id true sample_isMetaDataLog
                  sample_isInternal sample_stats 1 rack_metadata
                  sample_health sample_config None sample_settings 7
                  (lr := mkOldRepresentation 2 RACK)
                  eq_refl eq_refl eq_refl Hf Hs)).
Defined.

(** Sticky copysets on the node-scope scenario. *)
Lemma createManager_variant_witness :
  create true sample_isMetaDataLog sample_isInternal sample_stats
    1 node_metadata (Some sample_health) (Some sample_config)
    None None sample_settings 7
  = Ok sample_linear
  /\ exists m,
       createManager true sample_isMetaDataLog sample_isInternal sample_stats 7
         1 node_metadata (Some sample_health) (Some sample_config)
         None None sample_settings true 10 5000
       = Ok m
       /\ underlying_selector m = sample_linear
       /\ m_nodeset_state m = Some sample_health
       /\ variant m = StickyCopySetManager 10 5000.
Proof.
  split; [reflexivity |].
  exact (createManager_variant true sample_isMetaDataLog sample_isInternal
           sample_stats 7 1 node_metadata (Some sample_health) sample_config
           None None sample_settings true 10 5000
           (sel := sample_linear) eq_refl).
Defined.

(** A property without a (factor, scope) representation whose biggest scope
    is REGION, with the minimum locality scope at ROW: locality is on. *)
Lemma weighted_locality_enabled_witness :
  create true sample_isMetaDataLog sample_isInternal sample_stats
    1 multi_scope_metadata (Some sample_health) (Some sample_config)
    None None sample_settings 7
  = Ok (Weighted (sample_weighted multi_scope_metadata true))
  /\ (w_locality_enabled (sample_weighted multi_scope_metadata true) = true
      <-> scope_le ROW REGION).
Proof.
  split; [reflexivity |].
  exact (weighted_locality_enabled true sample_isMetaDataLog sample_isInternal
           sample_stats 1 multi_scope_metadata (Some sample_health)
           (Some sample_config) None None sample_settings 7
           (w := sample_weighted multi_scope_metadata true) eq_refl).
Defined.

(** Log 1 is neither a metadata log nor an internal log: warnings are on,
    and switching them off leaves the selection as it is. *)
Lemma weighted_print_bias_warnings_witness :
  create true sample_isMetaDataLog sample_isInternal sample_stats
    1 weighted_metadata (Some sample_health) (Some sample_config)
    None None sample_settings 7
  = Ok (Weighted (sample_weighted weighted_metadata false))
  /\ (w_print_bias_warnings (sample_weighted weighted_metadata false) = true
      <-> sample_isMetaDataLog 1 = false /\ sample_isInternal 1 = false)
  /\ selected
       (select sample_domain_of sample_constraints sample_effective_factor
          sample_shard_weight sample_draw sample_skewed
          (with_print_bias_warnings false
             (sample_weighted weighted_metadata false))
          (fun _ => 11%N) 7)
     = selected
         (select sample_domain_of sample_constraints sample_effective_factor
            sample_shard_weight sample_draw sample_skewed
            (sample_weighted weighted_metadata false) (fun _ => 11%N) 7).
Proof.
  split; [reflexivity |].
  pose proof (weighted_print_bias_warnings true sample_isMetaDataLog
                sample_isInternal sample_stats sample_domain_of
                sample_constraints sample_effective_factor sample_shard_weight
                sample_draw sample_skewed 1 weighted_metadata
                (Some sample_health) (Some sample_config) None None
                sample_settings 7
                (w := sample_weighted weighted_metadata false) eq_refl)
    as [Hflag [Hsel _]].
  split; [exact Hflag |].
  exact (proj1 (Hsel false (fun _ => 11%N) 7%N)).
Defined.

(** The sticky manager of the node-scope scenario: the check is prepared,
    and answers for any current configuration. *)
Lemma createManager_prepares_check_witness :
  createManager true sample_isMetaDataLog sample_isInternal sample_stats 7
    1 node_metadata (Some sample_health) (Some sample_config)
    None None sample_settings true 10 5000
  = Ok sample_sticky_manager
  /\ exists cfg,
       Some sample_config = Some cfg
       /\ full_nodeset sample_sticky_manager = shards node_metadata
       /\ effective_nodeset sample_sticky_manager =
          writerView (getStorageMembership
                        (getNodesConfigurationFromServerConfigSource cfg))
                     (shards node_metadata)
       /\ forall current,
          exists b,
            checkConfigConsistency sample_sticky_manager current = Ok b
            /\ (b = true <->
                writerView
                  (getStorageMembership
                     (getNodesConfigurationFromServerConfigSource current))
                  (shards node_metadata)
                = writerView
                    (getStorageMembership
                       (getNodesConfigurationFromServerConfigSource cfg))
                    (shards node_metadata)).
Proof.
  split; [reflexivity |].
  exact (createManager_prepares_check true sample_isMetaDataLog
           sample_isInternal sample_stats 7 1 node_metadata
           (Some sample_health) (Some sample_config) None None sample_settings
           true 10 5000 (m := sample_sticky_manager) eq_refl).
Defined.

(** The three selectors on the sample cluster: the linear and the
    cross-domain selector are built over the four writable shards, the
    weighted selector over the epoch metadata with all five. *)
Lemma create_candidates_witness :
  (create true sample_isMetaDataLog sample_isInternal sample_stats
     1 node_metadata (Some sample_health) (Some sample_config)
     None None sample_settings 7
   = Ok sample_linear
   /\ exists cfg,
        Some sample_config = Some cfg
        /\ candidates sample_linear =
           writerView (getStorageMembership
                         (getNodesConfigurationFromServerConfigSource cfg))
                      (shards node_metadata)
        /\ forall s,
           In s (candidates sample_linear) <->
           In s (shards node_metadata)
           /\ canWriteToShard
                (getStorageMembership
                   (getNodesConfigurationFromServerConfigSource cfg)) s = true)
  /\ (w_epoch_metadata (sample_weighted weighted_metadata false)
      = weighted_metadata
      /\ candidates (Weighted (sample_weighted weighted_metadata false))
         = shards weighted_metadata).
Proof.
  split.
  - split; [reflexivity |].
    exact (create_candidates true sample_isMetaDataLog sample_isInternal
             sample_stats 1 node_metadata (Some sample_health)
             (Some sample_config) None None sample_settings 7
             (sel := sample_linear) eq_refl).
  - exact (create_candidates true sample_isMetaDataLog sample_isInternal
             sample_stats 1 weighted_metadata (Some sample_health)
             (Some sample_config) None None sample_settings 7
             (sel := Weighted (sample_weighted weighted_metadata false))
             eq_refl).
Defined.

(** * Further properties of the factory on the sample cluster *)

(** X6.  Outside the weighted branch the outcome of [create] does not
    depend on the log attributes, the generator, the minimum locality
    scope, the statistics or the classification of the log id: two calls
    that differ only in these end the same way. *)
Theorem create_unweighted_independent abortOnFailedCheck
    isMetaDataLog isInternal Worker_stats
    isMetaDataLog' isInternal' Worker_stats'
    logid md nodeset_state config my_node_id
    log_attrs log_attrs' settings settings' rng rng' :
  uses_weighted md settings = false ->
  weighted_copyset_selector settings' = weighted_copyset_selector settings ->
  create abortOnFailedCheck isMetaDataLog isInternal Worker_stats
    logid md nodeset_state config my_node_id log_attrs settings rng
  = create abortOnFailedCheck isMetaDataLog' isInternal' Worker_stats'
      logid md nodeset_state config my_node_id log_attrs' settings' rng'.
Proof.
  intros Hw Hs.
  assert (Hw' : uses_weighted md settings' = false)
    by (unfold uses_weighted in *; rewrite Hs; exact Hw).
  rewrite !create_normal_form, Hw, Hw'. reflexivity.
Qed.

(** X9.  In the linear branch the outcome of [create] does not depend on the
    log id or on the caller's node id either: the linear selector is the
    same for every log and every caller. *)
Theorem create_linear_independent abortOnFailedCheck
    isMetaDataLog isInternal Worker_stats
    isMetaDataLog' isInternal' Worker_stats'
    logid logid' md nodeset_state config my_node_id my_node_id'
    log_attrs log_attrs' settings rng rng' lr :
  uses_weighted md settings = false ->
  toOldRepresentation (replication md) = Some lr ->
  sync_replication_scope lr = NODE \/ replication_factor lr = 1%N ->
  create abortOnFailedCheck isMetaDataLog isInternal Worker_stats
    logid md nodeset_state config my_node_id log_attrs settings rng
  = create abortOnFailedCheck isMetaDataLog' isInternal' Worker_stats'
      logid' md nodeset_state config my_node_id' log_attrs' settings rng'.
Proof.
  intros Hw Hlr Hn. apply node_or_single_copy_iff in Hn.
  rewrite !create_normal_form, Hw, Hlr, Hn. reflexivity.
Qed.

Lemma create_selector_sound_witness :
  create true sample_isMetaDataLog sample_isInternal sample_stats
    1 rack_metadata (Some sample_health) (Some sample_config)
    (Some sample_node_id) None sample_settings 7
  = Ok sample_cross_domain
  /\ uses_weighted rack_metadata sample_settings = false
  /\ exists lr,
       toOldRepresentation (replication rack_metadata) = Some lr
       /\ sync_replication_scope lr <> NODE
       /\ replication_factor lr <> 1%N
       /\ 2%N = replication_factor lr
       /\ RACK = sync_replication_scope lr.
Proof.
  split; [reflexivity |].
  exact (create_selector_sound true sample_isMetaDataLog sample_isInternal
           sample_stats 1 rack_metadata (Some sample_health)
           (Some sample_config) (Some sample_node_id) None sample_settings 7
           (sel := sample_cross_domain) eq_refl).
Defined.

Lemma create_cross_domain_sound_witness :
  create true sample_isMetaDataLog sample_isInternal sample_stats
    1 rack_metadata (Some sample_health) (Some sample_config)
    (Some sample_node_id) None sample_settings 7
  = Ok sample_cross_domain
  /\ Some sample_node_id = Some sample_node_id
  /\ 1%N = 1%N
  /\ Some sample_config = Some sample_config
  /\ (true = true ->
      RACK = RACK \/ RACK = ROW \/ RACK = CLUSTER \/ RACK = REGION).
Proof.
  split; [reflexivity |].
  exact (create_cross_domain_sound true sample_isMetaDataLog sample_isInternal
           sample_stats 1 rack_metadata (Some sample_health)
           (Some sample_config) (Some sample_node_id) None sample_settings 7
           (c := mkCrossDomainCopySetSelector 1 sample_writable
                   (Some sample_health) (Some sample_config) sample_node_id
                   2 RACK)
           eq_refl).
Defined.

Lemma create_failure_causes_witness :
  create true sample_isMetaDataLog sample_isInternal sample_stats
    1 data_center_metadata (Some sample_health) (Some sample_config)
    (Some sample_node_id) None sample_settings 7
  = Fail FailedCheckAbort
  /\ ((FailedCheckAbort = FailedCheckAbort
       /\ true = true
       /\ (Some sample_health = None
           \/ (uses_weighted data_center_metadata sample_settings = false
               /\ exists lr,
                    toOldRepresentation (replication data_center_metadata)
                    = Some lr
                    /\ sync_replication_scope lr <> NODE
                    /\ replication_factor lr <> 1%N
                    /\ accepted_domain_scope (sync_replication_scope lr)
                       = false)))
      \/ (FailedCheckAbort = OptionalEmptyException
          /\ Some sample_node_id = None
          /\ uses_weighted data_center_metadata sample_settings = false
          /\ exists lr,
               toOldRepresentation (replication data_center_metadata)
               = Some lr
               /\ sync_replication_scope lr <> NODE
               /\ replication_factor lr <> 1%N)).
Proof.
  split; [reflexivity |].
  exact (create_failure_causes true sample_isMetaDataLog sample_isInternal
           sample_stats 1 data_center_metadata (Some sample_health)
           sample_config (Some sample_node_id) None sample_settings 7
           (f := FailedCheckAbort) eq_refl).
Defined.

(** A null nodeset state on the weighted scenario: abort where checks
    abort, a weighted selector holding the null pointer where they do
    not. *)
Lemma create_null_pointer_witness :
  (@None NodeSetState = None \/ Some sample_config = None)
  /\ create true sample_isMetaDataLog sample_isInternal sample_stats
       1 weighted_metadata None (Some sample_config) None None
       sample_settings 7
     = Fail FailedCheckAbort
  /\ create false sample_isMetaDataLog sample_isInternal sample_stats
       1 weighted_metadata None (Some sample_config) None None
       sample_settings 7
     = Ok (Weighted
             (mkWeightedCopySetSelector 1 weighted_metadata None
                (Some sample_config) None None false sample_stats 7 true)).
Proof.
  assert (H : @None NodeSetState = None \/ Some sample_config = None)
    by (left; reflexivity).
  split; [exact H |]. split.
  - exact (proj1 (create_null_pointer true sample_isMetaDataLog
                    sample_isInternal sample_stats 1 weighted_metadata
                    None None sample_settings 7 H)
                 eq_refl).
  - exact (proj2 (create_null_pointer false sample_isMetaDataLog
                    sample_isInternal sample_stats 1 weighted_metadata
                    None None sample_settings 7 H)
                 eq_refl eq_refl).
Defined.

Lemma createManager_shares_nodeset_state_witness :
  createManager true sample_isMetaDataLog sample_isInternal sample_stats 7
    1 node_metadata (Some sample_health) (Some sample_config)
    None None sample_settings true 10 5000
  = Ok sample_sticky_manager
  /\ m_nodeset_state sample_sticky_manager = Some sample_health
  /\ selector_nodeset_state (underlying_selector sample_sticky_manager)
     = Some sample_health.
Proof.
  split; [reflexivity |].
  pose proof (createManager_shares_nodeset_state true sample_isMetaDataLog
                sample_isInternal sample_stats 7 1 node_metadata
                (Some sample_health) (Some sample_config) None None
                sample_settings true 10 5000 (m := sample_sticky_manager)
                eq_refl) as [H1 [H2 _]].
  split; [exact H1 | exact H2].
Defined.

(** The rack scenario under two logs' attributes, generators and locality
    settings: the same cross-domain selector. *)
Lemma create_unweighted_independent_witness :
  uses_weighted rack_metadata sample_settings = false
  /\ weighted_copyset_selector (mkSettings false REGION)
     = weighted_copyset_selector sample_settings
  /\ create true sample_isMetaDataLog sample_isInternal sample_stats
       1 rack_metadata (Some sample_health) (Some sample_config)
       (Some sample_node_id) None sample_settings 7
     = create true (fun _ => true) (fun _ => false) (StatsHolderRef 5)
         1 rack_metadata (Some sample_health) (Some sample_config)
         (Some sample_node_id) (Some (LogAttributesRef 3))
         (mkSettings false REGION) 8.
Proof.
  split; [reflexivity |]. split; [reflexivity |].
  exact (create_unweighted_independent true
           sample_isMetaDataLog sample_isInternal sample_stats
           (fun _ => true) (fun _ => false) (StatsHolderRef 5)
           1 rack_metadata (Some sample_health) (Some sample_config)
           (Some sample_node_id) None (Some (LogAttributesRef 3))
           sample_settings (mkSettings false REGION) 7 8 eq_refl eq_refl).
Defined.

Lemma create_linear_independent_witness :
  uses_weighted node_metadata sample_settings = false
  /\ toOldRepresentation (replication node_metadata)
     = Some (mkOldRepresentation 3 NODE)
  /\ create true sample_isMetaDataLog sample_isInternal sample_stats
       1 node_metadata (Some sample_health) (Some sample_config)
       None None sample_settings 7
     = create true sample_isMetaDataLog sample_isInternal sample_stats
         2 node_metadata (Some sample_health) (Some sample_config)
         (Some sample_node_id) None sample_settings 7.
Proof.
  split; [reflexivity |]. split; [reflexivity |].
  exact (create_linear_independent true
           sample_isMetaDataLog sample_isInternal sample_stats
           sample_isMetaDataLog sample_isInternal sample_stats
           1 2 node_metadata (Some sample_health) (Some sample_config)
           None (Some sample_node_id) None None sample_settings 7 7
           (lr := mkOldRepresentation 3 NODE)
           eq_refl eq_refl (or_introl eq_refl)).
Defined.

(** The rack scenario meets the conditions under which [create] returns. *)
Lemma create_returns_iff_witness :
  exists sel,
    create true sample_isMetaDataLog sample_isInternal sample_stats
      1 rack_metadata (Some sample_health) (Some sample_config)
      (Some sample_node_id) None sample_settings 7
    = Ok sel.
Proof.
  apply (proj2 (create_returns_iff true sample_isMetaDataLog sample_isInternal
                  sample_stats 1 rack_metadata (Some sample_health)
                  (Some sample_config) (Some sample_node_id) None
                  sample_settings 7)).
  split.
  - intros _. split; discriminate.
  - right. exists (mkOldRepresentation 2 RACK).
    split; [reflexivity |]. split; [discriminate |].
    right. split; [intros _; reflexivity | discriminate].
Defined.

(** With checks that do not abort, the weighted scenario and no
    configuration: [create] returns, [createManager] dereferences the null
    pointer. *)
Lemma createManager_failure_witness :
  createManager false sample_isMetaDataLog sample_isInternal sample_stats 7
    1 weighted_metadata (Some sample_health) None None None sample_settings
    false 10 5000
  = Fail NullDereference.
Proof.
  apply (proj2 (createManager_failure false sample_isMetaDataLog
                  sample_isInternal sample_stats 7 1 weighted_metadata
                  (Some sample_health) None None None sample_settings
                  false 10 5000 NullDereference)).
  right. repeat split. eexists. reflexivity.
Defined.

(** * The keep-alive counter *)

Lemma size_t_wrap_succ (n : N) :
  (n + 1 < size_t_modulus)%N -> ((n + 1) mod size_t_modulus = n + 1)%N.
Proof. intros H. apply N.mod_small. exact H. Qed.

Lemma size_t_wrap_pred (n : N) :
  (0 < n)%N -> (n < size_t_modulus)%N ->
  ((n + size_t_modulus - 1) mod size_t_modulus = n - 1)%N.
Proof.
  intros Hpos Hlt.
  replace (n + size_t_modulus - 1)%N with ((n - 1) + 1 * size_t_modulus)%N
    by lia.
  rewrite N.Div0.mod_add. apply N.mod_small. lia.
Qed.

(** X10.  Reference counting on a running loop.  Take any sequence of
    acquire and release calls in which no release comes without an
    outstanding reference, short enough for the counter not to overflow.
    On a loop that is not shutting down every acquire is granted, no
    assertion fires, and the counter ends at the number of references
    outstanding; the loop is still not shutting down. *)
Theorem keepAlive_balanced assertsEnabled calls el k :
  shutting_down_ el = false ->
  outstanding (num_references_ el) calls = Some k ->
  (num_references_ el + N.of_nat (count_acquires calls) < size_t_modulus)%N ->
  keepAliveCalls assertsEnabled calls el
  = Ok (repeat true (count_acquires calls), mkEventLoop false k).
Proof.
  revert el k. induction calls as [| c rest IH]; intros [sd n] k Hs Ho Hb;
    simpl in Hs, Ho, Hb; subst sd.
  - injection Ho as <-. reflexivity.
  - destruct c.
    + cbn [keepAliveCalls count_acquires repeat outstanding] in *.
      unfold keepAliveAcquire. cbn [shutting_down_ num_references_ fst snd].
      rewrite size_t_wrap_succ by lia.
      rewrite (IH (mkEventLoop false (n + 1)) k eq_refl Ho)
        by (cbn [num_references_]; lia).
      reflexivity.
    + cbn [keepAliveCalls count_acquires outstanding] in *.
      destruct (N.eqb n 0) eqn:Hz; [discriminate Ho |].
      apply N.eqb_neq in Hz.
      unfold keepAliveRelease, ld_assert.
      cbn [shutting_down_ num_references_].
      replace (N.ltb 0 n) with true by (symmetry; apply N.ltb_lt; lia).
      cbn [bind].
      rewrite size_t_wrap_pred by lia.
      apply (IH (mkEventLoop false (n - 1)) k eq_refl Ho).
      cbn [num_references_]. lia.
Qed.

(** X11.  A release with no reference outstanding.  Where assertions are
    compiled in the call aborts; where they are not, the counter wraps
    around to the largest [size_t]. *)
Theorem keepAliveRelease_without_reference el :
  num_references_ el = 0%N ->
  keepAliveRelease true el = Fail FailedCheckAbort
  /\ keepAliveRelease false el
     = Ok (mkEventLoop (shutting_down_ el) (size_t_modulus - 1)).
Proof.
  intros H. unfold keepAliveRelease, ld_assert. rewrite H. split; reflexivity.
Qed.

(** X12.  A loop that is shutting down.  Whatever keep-alive calls follow,
    no acquire is granted and the loop stays shutting down; with
    assertions compiled in, the counter has gone down by exactly the
    number of releases. *)
Theorem keepAlive_shutting_down assertsEnabled calls el results el' :
  shutting_down_ el = true ->
  keepAliveCalls assertsEnabled calls el = Ok (results, el') ->
  results = repeat false (count_acquires calls)
  /\ shutting_down_ el' = true
  /\ (assertsEnabled = true ->
      (num_references_ el < size_t_modulus)%N ->
      (num_references_ el' + N.of_nat (count_releases calls)
       = num_references_ el)%N).
Proof.
  revert el results el'.
  induction calls as [| c rest IH]; intros [sd n] results el' Hs H;
    simpl in Hs; subst sd.
  - injection H as <- <-. repeat split. intros _ _. simpl. lia.
  - destruct c.
    + cbn [keepAliveCalls] in H. unfold keepAliveAcquire in H.
      cbn [shutting_down_ fst snd] in H.
      destruct (keepAliveCalls assertsEnabled rest (mkEventLoop true n))
        as [[rs el1] | f] eqn:Hr; [| discriminate H].
      cbn [bind fst snd] in H. injection H as <- <-.
      destruct (IH (mkEventLoop true n) _ _ eq_refl Hr) as [-> [Hsd Hn]].
      repeat split; assumption.
    + cbn [keepAliveCalls] in H. unfold keepAliveRelease, ld_assert in H.
      cbn [shutting_down_ num_references_] in H.
      destruct (N.ltb 0 n) eqn:Hpos.
      * cbn [bind] in H.
        destruct (IH (mkEventLoop true _) _ _ eq_refl H) as [-> [Hsd Hn]].
        repeat split; try assumption.
        intros Ha Hlt. apply N.ltb_lt in Hpos.
        cbn [num_references_ count_releases] in *.
        rewrite size_t_wrap_pred in Hn by assumption.
        specialize (Hn Ha). lia.
      * destruct assertsEnabled; [discriminate H |].
        cbn [bind] in H.
        destruct (IH (mkEventLoop true _) _ _ eq_refl H) as [-> [Hsd Hn]].
        repeat split; try assumption.
        intros Ha. discriminate Ha.
Qed.

(** X14.  What the assertion buys.  On a loop that is not shutting down,
    with assertions compiled in and no overflow of the counter, a sequence
    of keep-alive calls that runs to its end never released a reference
    that was not outstanding, and the counter holds the number of
    references outstanding. *)
Theorem keepAlive_asserted calls el results el' :
  shutting_down_ el = false ->
  (num_references_ el + N.of_nat (count_acquires calls) < size_t_modulus)%N ->
  keepAliveCalls true calls el = Ok (results, el') ->
  outstanding (num_references_ el) calls = Some (num_references_ el').
Proof.
  revert el results el'.
  induction calls as [| c rest IH]; intros [sd n] results el' Hs Hb H;
    simpl in Hs, Hb; subst sd.
  - injection H as <- <-. reflexivity.
  - destruct c.
    + cbn [keepAliveCalls count_acquires outstanding] in *.
      unfold keepAliveAcquire in H.
      cbn [shutting_down_ num_references_ fst snd] in H.
      rewrite size_t_wrap_succ in H by lia.
      destruct (keepAliveCalls true rest (mkEventLoop false (n + 1)))
        as [[rs el1] | f] eqn:Hr; [| discriminate H].
      cbn [bind fst snd] in H. injection H as <- <-. cbn [num_references_].
      apply (IH (mkEventLoop false (n + 1)) rs el1 eq_refl); [| exact Hr].
      cbn [num_references_]. lia.
    + cbn [keepAliveCalls count_acquires outstanding] in *.
      unfold keepAliveRelease, ld_assert in H.
      cbn [shutting_down_ num_references_] in H.
      destruct (N.ltb 0 n) eqn:Hpos; [| discriminate H].
      apply N.ltb_lt in Hpos. cbn [num_references_].
      replace (N.eqb n 0) with false by (symmetry; apply N.eqb_neq; lia).
      cbn [bind] in H. rewrite size_t_wrap_pred in H by lia.
      apply (IH (mkEventLoop false (n - 1)) results el' eq_refl); [| exact H].
      cbn [num_references_]. lia.
Qed.

Lemma keepAlive_asserted_witness :
  shutting_down_ (mkEventLoop false 1) = false
  /\ keepAliveCalls true [Release; Acquire; Acquire] (mkEventLoop false 1)
     = Ok ([true; true], mkEventLoop false 2)
  /\ outstanding 1 [Release; Acquire; Acquire] = Some 2%N.
Proof.
  split; [reflexivity |]. split; [reflexivity |].
  assert (Hb : (num_references_ (mkEventLoop false 1)
                + N.of_nat (count_acquires [Release; Acquire; Acquire])
                < size_t_modulus)%N)
    by (vm_compute; reflexivity).
  exact (keepAlive_asserted [Release; Acquire; Acquire]
           (mkEventLoop false 1) (results := [true; true])
           (el' := mkEventLoop false 2) eq_refl Hb eq_refl).
Defined.

(** Three work contexts take and return a reference. *)
Lemma keepAlive_balanced_witness :
  shutting_down_ (mkEventLoop false 0) = false
  /\ outstanding 0
       [Acquire; Acquire; Release; Acquire; Release; Release] = Some 0%N
  /\ keepAliveCalls true
       [Acquire; Acquire; Release; Acquire; Release; Release]
       (mkEventLoop false 0)
     = Ok ([true; true; true], mkEventLoop false 0).
Proof.
  split; [reflexivity |]. split; [reflexivity |].
  assert (Hb : (num_references_ (mkEventLoop false 0)
                + N.of_nat (count_acquires
                     [Acquire; Acquire; Release; Acquire; Release; Release])
                < size_t_modulus)%N)
    by (vm_compute; reflexivity).
  exact (keepAlive_balanced true
           [Acquire; Acquire; Release; Acquire; Release; Release]
           (mkEventLoop false 0) eq_refl eq_refl Hb).
Defined.

Lemma keepAliveRelease_without_reference_witness :
  num_references_ (mkEventLoop false 0) = 0%N
  /\ keepAliveRelease true (mkEventLoop false 0) = Fail FailedCheckAbort
  /\ keepAliveRelease false (mkEventLoop false 0)
     = Ok (mkEventLoop false 18446744073709551615).
Proof.
  split; [reflexivity |].
  exact (keepAliveRelease_without_reference (mkEventLoop false 0) eq_refl).
Defined.

(** Two references are outstanding when the loop starts shutting down. *)
Lemma keepAlive_shutting_down_witness :
  shutting_down_ (mkEventLoop true 2) = true
  /\ keepAliveCalls true [Release; Acquire; Release] (mkEventLoop true 2)
     = Ok ([false], mkEventLoop true 0)
  /\ [false] = repeat false (count_acquires [Release; Acquire; Release])
  /\ shutting_down_ (mkEventLoop true 0) = true.
Proof.
  split; [reflexivity |]. split; [reflexivity |].
  pose proof (keepAlive_shutting_down true [Release; Acquire; Release]
                (mkEventLoop true 2) (results := [false])
                (el' := mkEventLoop true 0) eq_refl eq_refl) as [H1 [H2 _]].
  split; [exact H1 | exact H2].
Defined.

(** * The serialization test *)

Lemma size_t_add_small (a b : N) :
  (a + b < size_t_modulus)%N -> size_t_add a b = (a + b)%N.
Proof. intros H. unfold size_t_add. apply N.mod_small. exact H. Qed.

Lemma size_t_sub_small (a b : N) :
  (b <= a)%N -> (a < size_t_modulus)%N -> size_t_sub a b = (a - b)%N.
Proof.
  intros Hle Hlt. unfold size_t_sub.
  replace (a + size_t_modulus - b)%N with ((a - b) + 1 * size_t_modulus)%N
    by lia.
  rewrite N.Div0.mod_add. apply N.mod_small. lia.
Qed.

Lemma int_to_size_t_of_N (n : N) :
  (n < size_t_modulus)%N -> int_to_size_t (Z.of_N n) = n.
Proof.
  intros H. unfold int_to_size_t.
  rewrite Z.mod_small.
  - apply N2Z.id.
  - split; [apply N2Z.is_nonneg |].
    change (2 ^ 64)%Z with (Z.of_N size_t_modulus). apply N2Z.inj_lt. exact H.
Qed.

Lemma max_len_below_modulus : (max_len < size_t_modulus)%N.
Proof. reflexivity. Qed.

Lemma set_nth_length {A : Type} (i : nat) (x : A) (v : list A) :
  length (set_nth i x v) = length v.
Proof.
  revert i. induction v as [| h t IH]; intros [| k]; simpl;
    try reflexivity. rewrite IH. reflexivity.
Qed.

Lemma nth_set_nth_eq {A : Type} (i : nat) (x d : A) (v : list A) :
  (i < length v)%nat -> nth i (set_nth i x v) d = x.
Proof.
  revert i. induction v as [| h t IH]; intros [| k] H; simpl in *;
    try lia; try reflexivity. apply IH. lia.
Qed.

Lemma nth_set_nth_neq {A : Type} (i j : nat) (x d : A) (v : list A) :
  i <> j -> nth j (set_nth i x v) d = nth j v d.
Proof.
  revert i j. induction v as [| h t IH]; intros [| i] [| j] H; simpl;
    try reflexivity; try congruence. apply IH. congruence.
Qed.

Section OffsetMapTestProperties.

Variable OffsetMap : Type.
Variable CounterType : Type.
Variable BYTE_OFFSET : CounterType.
Variable newOffsetMap : OffsetMap.
Variable setCounter : CounterType -> N -> OffsetMap -> OffsetMap.
Variable getCounter : CounterType -> OffsetMap -> N.
Variable serialize : OffsetMap -> Memory -> N -> N -> N * Memory.
Variable deserialize : OffsetMap -> Memory -> N -> N -> Z * OffsetMap.

Local Abbreviation write_record' :=
  (write_record BYTE_OFFSET newOffsetMap setCounter serialize).
Local Abbreviation write_loop' :=
  (write_loop BYTE_OFFSET newOffsetMap setCounter serialize).
Local Abbreviation read_record' :=
  (read_record BYTE_OFFSET newOffsetMap getCounter deserialize).
Local Abbreviation read_loop' :=
  (read_loop BYTE_OFFSET newOffsetMap getCounter deserialize).
Local Abbreviation readable' :=
  (written_prefix_readable BYTE_OFFSET newOffsetMap getCounter deserialize).
Local Abbreviation record v := (setCounter BYTE_OFFSET v newOffsetMap).

Lemma write_loop_app l1 l2 w :
  write_loop' (l1 ++ l2) w =
  match write_loop' l1 w with
  | Go w' => write_loop' l2 w'
  | AssertionFailed a i => AssertionFailed a i
  end.
Proof.
  revert w. induction l1 as [| i l1 IH]; intros w; simpl; [reflexivity |].
  destruct (write_record' i w); [apply IH | reflexivity].
Qed.

Lemma read_loop_app buf sizes l1 l2 n :
  read_loop' buf sizes (l1 ++ l2) n =
  match read_loop' buf sizes l1 n with
  | Go n' => read_loop' buf sizes l2 n'
  | AssertionFailed a i => AssertionFailed a i
  end.
Proof.
  revert n. induction l1 as [| i l1 IH]; intros n; simpl; [reflexivity |].
  destruct (read_record' buf sizes i n); [apply IH | reflexivity].
Qed.

Local Abbreviation contract :=
  (serializes_within BYTE_OFFSET newOffsetMap setCounter getCounter serialize
                     deserialize).

(** One round of the first loop keeps the written prefix readable. *)
Lemma write_record_step bound i w :
  contract bound ->
  (N.of_nat n_counters * bound <= max_len)%N ->
  (i < n_counters)%nat ->
  readable' bound i w ->
  exists w', write_record' i w = Go w' /\ readable' bound (S i) w'.
Proof.
  intros Hc Hroom Hi [Hw [Hlen Hread]].
  pose proof max_len_below_modulus as Hmax.
  assert (Hnext : (N.of_nat (S i) * bound <= N.of_nat n_counters * bound)%N)
    by (apply N.mul_le_mono_r; lia).
  assert (Hsucc : (N.of_nat (S i) * bound = N.of_nat i * bound + bound)%N)
    by lia.
  assert (Hv : (N.of_nat i mod 10 < 10)%N) by (apply N.mod_lt; lia).
  assert (Hsize : size_t_sub max_len (written w) = (max_len - written w)%N)
    by (apply size_t_sub_small; lia).
  unfold write_record. rewrite Hsize.
  destruct (Hc (N.of_nat i mod 10)%N (buf1 w) (written w)
               (max_len - written w)%N Hv ltac:(lia))
    as [Hn [Hframe Hback]].
  set (r := serialize (record (N.of_nat i mod 10)%N) (buf1 w) (written w)
                      (max_len - written w)%N) in *.
  rewrite nth_set_nth_eq by (rewrite Hlen; exact Hi).
  replace (N.ltb 0 (fst r)) with true by (symmetry; apply N.ltb_lt; lia).
  rewrite size_t_add_small by lia.
  eexists. split; [reflexivity |].
  split; [| split]; cbn [written counter_size buf1].
  - lia.
  - rewrite set_nth_length. exact Hlen.
  - intros buf sizes Hbuf Hsizes.
    rewrite seq_S, read_loop_app. cbn [Nat.add].
    rewrite (Hread buf sizes).
    + cbn [read_loop]. unfold read_record. rewrite Hsize.
      destruct (Hback buf (max_len - written w)%N) as [Hbytes Hcounter].
      * intros a Ha. apply Hbuf. lia.
      * lia.
      * rewrite Hbytes, Hcounter, N.eqb_refl.
        rewrite int_to_size_t_of_N by lia.
        rewrite (Hsizes i) by lia.
        rewrite nth_set_nth_eq by (rewrite Hlen; exact Hi).
        rewrite N.eqb_refl, size_t_add_small by lia.
        reflexivity.
    + intros a Ha. rewrite Hbuf by lia. apply Hframe. exact Ha.
    + intros j Hj. rewrite Hsizes by lia.
      apply nth_set_nth_neq. lia.
Qed.

(** The first loop, run for [k] rounds, leaves the written prefix readable. *)
Lemma write_loop_readable bound k uninitialized :
  contract bound ->
  (N.of_nat n_counters * bound <= max_len)%N ->
  (k <= n_counters)%nat ->
  exists w,
    write_loop' (seq 0 k) (mkWriter uninitialized (repeat 0%N n_counters) 0)
    = Go w
    /\ readable' bound k w.
Proof.
  intros Hc Hroom. induction k as [| k IH]; intros Hk.
  - eexists. split; [reflexivity |].
    split; [| split]; cbn [written counter_size buf1].
    + lia.
    + apply repeat_length.
    + intros buf sizes _ _. reflexivity.
  - destruct (IH ltac:(lia)) as [w [Hw Hinv]].
    destruct (write_record_step (i := k) Hc Hroom ltac:(lia) Hinv)
      as [w' [Hstep Hinv']].
    exists w'. split; [| exact Hinv'].
    rewrite seq_S, write_loop_app, Hw. cbn [Nat.add write_loop].
    rewrite Hstep. reflexivity.
Qed.

(** X13.  The test passes on every implementation that serializes within
    bounds: if records of counters below 10 take at most [bound] bytes, 99
    of them fit in the buffer, a record is written without touching the
    memory below it and is read back, with its length, from its own bytes,
    then no assertion of the test fails, whatever the buffer held at the
    start. *)
Theorem BasicSerialization_passes bound uninitialized :
  serializes_within BYTE_OFFSET newOffsetMap setCounter getCounter serialize
                    deserialize bound ->
  (N.of_nat n_counters * bound <= max_len)%N ->
  BasicSerialization BYTE_OFFSET newOffsetMap setCounter getCounter serialize
                     deserialize uninitialized
  = Passed.
Proof.
  intros Hc Hroom. unfold BasicSerialization.
  destruct (write_loop_readable (k := n_counters) uninitialized Hc Hroom
              (Nat.le_refl _))
    as [w [-> [_ [_ Hread]]]].
  rewrite (Hread (buf1 w) (counter_size w))
    by (intros; reflexivity).
  rewrite N.eqb_refl. reflexivity.
Qed.

End OffsetMapTestProperties.

Lemma byte_of_counter_back (v : N) :
  (v < 10)%N -> Byte.to_N (byte_of_counter v) = v.
Proof.
  intros H. destruct v as [| p]; [reflexivity |].
  do 4 (try destruct p as [p | p |]); try lia; reflexivity.
Qed.

(** The sample implementation serializes within one byte. *)
Lemma sample_serializes_within :
  serializes_within tt 0%N sample_setCounter sample_getCounter
                    sample_serialize sample_deserialize 1.
Proof.
  intros v mem buf size Hv Hsize. unfold sample_serialize, sample_setCounter.
  replace (N.leb 1 size) with true by (symmetry; apply N.leb_le; exact Hsize).
  cbn [fst snd]. split; [lia |]. split.
  - intros a Ha.
    replace (N.eqb a buf) with false by (symmetry; apply N.eqb_neq; lia).
    reflexivity.
  - intros mem' size' Hmem Hsize'. unfold sample_deserialize, sample_getCounter.
    replace (N.leb 1 size') with true
      by (symmetry; apply N.leb_le; exact Hsize').
    cbn [fst snd]. split; [reflexivity |].
    rewrite (Hmem buf) by lia. rewrite N.eqb_refl.
    apply byte_of_counter_back. exact Hv.
Qed.

(** The test on the sample implementation, run on a zeroed buffer, and on
    the implementation whose [deserialize] reports a wrong length. *)
Example BasicSerialization_sample_run :
  BasicSerialization tt 0%N sample_setCounter sample_getCounter
    sample_serialize sample_deserialize (fun _ => Byte.x00)
  = Passed.
Proof. vm_compute. reflexivity. Qed.

Example BasicSerialization_wrong_length :
  BasicSerialization tt 0%N sample_setCounter sample_getCounter
    sample_serialize sample_deserialize_long (fun _ => Byte.x00)
  = Failed BytesConsumed 0.
Proof. vm_compute. reflexivity. Qed.

Lemma BasicSerialization_passes_witness :
  (N.of_nat n_counters * 1 <= max_len)%N
  /\ BasicSerialization tt 0%N sample_setCounter sample_getCounter
       sample_serialize sample_deserialize (fun _ => Byte.xff)
     = Passed.
Proof.
  assert (Hroom : (N.of_nat n_counters * 1 <= max_len)%N)
    by (vm_compute; discriminate).
  split; [exact Hroom |].
  exact (BasicSerialization_passes (fun _ => Byte.xff)
           sample_serializes_within Hroom).
Defined.
